(** * ResponseProcessor of chat-controller.js: reasoning/answer splitting

    A shallow embedding of the [ResponseProcessor] module of
    [src/js/chat-controller.js] (lines 115-290): the two parsers
    [processCoTResponse] and [processPartialCoTResponse], the formatter
    [formatResponseForDisplay] and [resetState], together with the string
    and regular-expression primitives they call.

    JavaScript strings are sequences of UTF-16 code units; they are modelled
    as lists of code units.  The module-level variables
    [lastThinkingContent], [lastAnswerContent] and [isThinking] are an
    explicit state threaded through a small state-and-exception monad.

    Part IV covers the code around the parsers: the thinking flag, the
    callback of the streaming handlers of [ModelHandler], and the two
    rendering functions of [src/js/ui-controller.js],
    [formatTextWithReasoningHighlights] and [formatCodeBlocks]. *)

From Stdlib Require Import List NArith Ascii String Bool Arith Lia.
Import ListNotations.

Set Implicit Arguments.

(* ================================================================== *)
(** * Part I: definitions *)
(* ================================================================== *)

(** ** JavaScript strings *)

Definition codeUnit := N.
Definition jsstring := list codeUnit.

(** A literal of the source, written with its ASCII characters. *)
Definition lit (s : string) : jsstring :=
  map N_of_ascii (list_ascii_of_string s).

(** [s.startsWith(p)] *)
Fixpoint startsWith (s p : jsstring) {struct p} : bool :=
  match p, s with
  | [], _ => true
  | _ :: _, [] => false
  | a :: p', b :: s' => N.eqb a b && startsWith s' p'
  end.

(** [s.includes(p)] *)
Fixpoint includes (s p : jsstring) {struct s} : bool :=
  startsWith s p ||
  match s with
  | [] => false
  | _ :: s' => includes s' p
  end.

(** The leftmost occurrence of [p] in [s]: the text before it and the text
    after it.  This is where a regular expression that begins with the
    literal [p] and whose remainder cannot fail starts its match. *)
Fixpoint splitFirst (s p : jsstring) {struct s} : option (jsstring * jsstring) :=
  if startsWith s p then Some ([], skipn (List.length p) s)
  else match s with
       | [] => None
       | c :: s' =>
           match splitFirst s' p with
           | Some (pre, post) => Some (c :: pre, post)
           | None => None
           end
       end.

(** WhiteSpace and LineTerminator code units, the ones [trim] removes. *)
Definition isWhiteSpace (c : codeUnit) : bool :=
  match c with
  | 9 | 10 | 11 | 12 | 13 | 32 | 160 | 5760
  | 8192 | 8193 | 8194 | 8195 | 8196 | 8197 | 8198 | 8199 | 8200 | 8201 | 8202
  | 8232 | 8233 | 8239 | 8287 | 12288 | 65279 => true
  | _ => false
  end%N.

Fixpoint trimStart (s : jsstring) : jsstring :=
  match s with
  | [] => []
  | c :: s' => if isWhiteSpace c then trimStart s' else s
  end.

Definition trimEnd (s : jsstring) : jsstring := rev (trimStart (rev s)).

(** [s.trim()] *)
Definition trim (s : jsstring) : jsstring := trimEnd (trimStart s).

Fixpoint jsstring_eqb (a b : jsstring) : bool :=
  match a, b with
  | [], [] => true
  | x :: a', y :: b' => N.eqb x y && jsstring_eqb a' b'
  | _, _ => false
  end.

(** ** The two protocol markers and the regular expressions of the source *)

Definition Thinking : jsstring := lit "Thinking:".
Definition Answer : jsstring := lit "Answer:".

(** A match result is [null] ([None]) or an array; the code only reads
    entry 1 of the array, the capture group, so a successful match is
    represented by that group. *)
Definition matchResult := option jsstring.

(** [response.match(/Thinking:(.*?)(?=Answer:|$)/s)].  The match starts at
    the leftmost [Thinking:]; the lazy group then grows one code unit at a
    time (with the [s] flag the dot matches every code unit) until the
    lookahead holds, that is until [Answer:] follows or the input ends. *)
Definition matchThinking (response : jsstring) : matchResult :=
  match splitFirst response Thinking with
  | Some (_, rest) =>
      Some (match splitFirst rest Answer with
            | Some (mid, _) => mid
            | None => rest
            end)
  | None => None
  end.

(** [response.match(/Answer:(.*?)$/s)].  Without the [m] flag the dollar
    only holds at the end of the input, so the group is everything after
    the leftmost [Answer:]. *)
Definition matchAnswer (response : jsstring) : matchResult :=
  match splitFirst response Answer with
  | Some (_, post) => Some post
  | None => None
  end.

(** [s.replace(/^Thinking:/, r)] *)
Definition replaceLeadingThinking (r s : jsstring) : jsstring :=
  if startsWith s Thinking then r ++ skipn (List.length Thinking) s else s.

(** [s.replace(/^.*?Thinking:/s, r)]: everything up to and including the
    leftmost [Thinking:] is replaced; a string without the marker is
    returned unchanged. *)
Definition replaceUpToThinking (r s : jsstring) : jsstring :=
  match splitFirst s Thinking with
  | Some (_, post) => r ++ post
  | None => s
  end.

(** ** Objects of the module *)

(** The object the two parsers return.  The fields [partial] and [stage]
    are absent from some of the object literals: [None] is [undefined]. *)
Record Processed := mkProcessed {
  thinking : jsstring;
  answer : jsstring;
  hasStructuredResponse : bool;
  partial : option bool;
  stage : option jsstring
}.

Record Settings := mkSettings {
  streaming : bool;
  enableCoT : bool;
  showThinking : bool
}.

(** The private state of the module. *)
Record ModuleState := mkState {
  lastThinkingContent : jsstring;
  lastAnswerContent : jsstring;
  isThinking : bool
}.

(** Truthiness of the values that the code tests. *)
Definition truthyMatch (m : matchResult) : bool :=
  match m with Some _ => true | None => false end.

Definition truthyFlag (b : option bool) : bool :=
  match b with Some true => true | _ => false end.

Definition truthyString (s : jsstring) : bool :=
  match s with [] => false | _ :: _ => true end.

(** [stage === 'thinking'] *)
Definition stageIsThinking (st : option jsstring) : bool :=
  match st with
  | Some v => jsstring_eqb v (lit "thinking")
  | None => false
  end.

(** ** The state-and-exception monad *)

Inductive Exn := TypeError.

Inductive outcome (A : Type) :=
| Ok (a : A)
| Throw (e : Exn).

Arguments Throw {A} e.

Definition M (A : Type) := ModuleState -> outcome A * ModuleState.

Definition ret {A} (a : A) : M A := fun s => (Ok a, s).

Definition bind {A B} (m : M A) (k : A -> M B) : M B :=
  fun s => match m s with
           | (Ok a, s') => k a s'
           | (Throw e, s') => (Throw e, s')
           end.

Definition throw {A} (e : Exn) : M A := fun s => (Throw e, s).

Declare Scope js_scope.
Delimit Scope js_scope with js.
Notation "x <- m ;; k" := (bind m (fun x => k))
  (at level 61, m at next level, right associativity) : js_scope.
Notation "m ;;; k" := (bind m (fun _ => k))
  (at level 61, right associativity) : js_scope.
Open Scope js_scope.

Definition getLastAnswerContent : M jsstring :=
  fun s => (Ok (lastAnswerContent s), s).

Definition setLastThinkingContent (v : jsstring) : M unit :=
  fun s => (Ok tt, mkState v (lastAnswerContent s) (isThinking s)).

Definition setLastAnswerContent (v : jsstring) : M unit :=
  fun s => (Ok tt, mkState (lastThinkingContent s) v (isThinking s)).

(** [m[1]]: reading an entry of [null] throws a TypeError. *)
Definition group1 (m : matchResult) : M jsstring :=
  match m with
  | Some g => ret g
  | None => throw TypeError
  end.

(** ** The functions of ResponseProcessor *)

Definition processCoTResponse (response : jsstring) : M Processed :=
  let thinkingMatch := matchThinking response in
  let answerMatch := matchAnswer response in
  if truthyMatch thinkingMatch && truthyMatch answerMatch then
    g1 <- group1 thinkingMatch ;;
    g2 <- group1 answerMatch ;;
    let thinking := trim g1 in
    let answer := trim g2 in
    setLastThinkingContent thinking ;;;
    setLastAnswerContent answer ;;;
    ret (mkProcessed thinking answer true None None)
  else if startsWith response Thinking && negb (includes response Answer) then
    let thinking := trim (replaceLeadingThinking [] response) in
    setLastThinkingContent thinking ;;;
    lastAnswer <- getLastAnswerContent ;;
    ret (mkProcessed thinking lastAnswer true (Some true) (Some (lit "thinking")))
  else if includes response Thinking && negb (truthyMatch thinkingMatch) then
    let thinking := replaceUpToThinking Thinking response in
    ret (mkProcessed (trim (replaceLeadingThinking [] thinking)) [] false
           (Some true) None)
  else
    ret (mkProcessed [] response false None None).

Definition processPartialCoTResponse (fullText : jsstring) : M Processed :=
  let fallback := ret (mkProcessed [] fullText false None None) in
  if includes fullText Thinking && negb (includes fullText Answer) then
    let thinking := trim (replaceUpToThinking [] fullText) in
    ret (mkProcessed thinking [] true (Some true) (Some (lit "thinking")))
  else if includes fullText Thinking && includes fullText Answer then
    let thinkingMatch := matchThinking fullText in
    let answerMatch := matchAnswer fullText in
    if truthyMatch thinkingMatch && truthyMatch answerMatch then
      g1 <- group1 thinkingMatch ;;
      g2 <- group1 answerMatch ;;
      ret (mkProcessed (trim g1) (trim g2) true (Some false) None)
    else fallback
  else fallback.

(** The waiting indicator: U+1F914 (a surrogate pair) and [" Thinking..."]. *)
Definition placeholder : jsstring :=
  [55358; 56596]%N ++ lit " Thinking...".

Definition formatResponseForDisplay (processed : Processed) (settings : Settings)
  : jsstring :=
  if negb (enableCoT settings) || negb (hasStructuredResponse processed) then
    answer processed
  else if showThinking settings then
    if truthyFlag (partial processed) && stageIsThinking (stage processed) then
      lit "Thinking: " ++ thinking processed
    else if truthyFlag (partial processed) then
      thinking processed
    else
      lit "Thinking: " ++ thinking processed ++ [10; 10]%N ++ lit "Answer: "
        ++ answer processed
  else
    if truthyString (answer processed) then answer processed else placeholder.

Definition initialState : ModuleState := mkState [] [] false.

Definition resetState : M unit := fun _ => (Ok tt, initialState).

(** Feeding a parser the successive snapshots of one stream. *)
Fixpoint feed (parser : jsstring -> M Processed) (snapshots : list jsstring)
  : M (list Processed) :=
  match snapshots with
  | [] => ret []
  | t :: rest =>
      p <- parser t ;;
      ps <- feed parser rest ;;
      ret (p :: ps)
  end.

(** ** The classification of the specification, read off a [Processed]

    The specification speaks of [isStructured], [isPartial] and a
    three-valued [stage].  In the objects of the source [partial] is
    [true], [false] or absent and [stage] is ['thinking'] or absent; the
    formatter tests both by truthiness and by [=== 'thinking'].
    Accordingly [isPartial] is the truthiness of [partial]; the stage is
    REASONING when [stage] is ['thinking'], COMPLETE for a structured
    object that is not partial, and NONE otherwise. *)

Inductive Stage := NONE | REASONING | COMPLETE.

Definition isStructured (p : Processed) : bool := hasStructuredResponse p.

Definition isPartial (p : Processed) : bool := truthyFlag (partial p).

Definition stageOf (p : Processed) : Stage :=
  if stageIsThinking (stage p) then REASONING
  else if hasStructuredResponse p && negb (truthyFlag (partial p)) then COMPLETE
  else NONE.

(** ** Occurrences of a marker, stated without reference to the scan *)

(** [p] occurs in [s] between [pre] and [post], and nowhere further left. *)
Definition FirstOcc (p s pre post : jsstring) : Prop :=
  s = pre ++ p ++ post /\
  forall pre' post', s = pre' ++ p ++ post' -> List.length pre <= List.length pre'.

(** The text between the leftmost [Thinking:] and the first [Answer:] that
    follows it. *)
Definition BetweenMarkers (text mid : jsstring) : Prop :=
  exists pre rest post,
    FirstOcc Thinking text pre rest /\ FirstOcc Answer rest mid post.

(** The same, or the whole text after the leftmost [Thinking:] when no
    [Answer:] follows it. *)
Definition ReasoningSpan (text mid : jsstring) : Prop :=
  BetweenMarkers text mid \/
  exists pre, FirstOcc Thinking text pre mid /\ includes mid Answer = false.

(** The text after the leftmost [Answer:]. *)
Definition AnswerSpan (text post : jsstring) : Prop :=
  exists pre, FirstOcc Answer text pre post.

(** [t] is [s] without its leading and trailing white space. *)
Definition Trimmed (s t : jsstring) : Prop :=
  exists l r,
    s = l ++ t ++ r /\
    forallb isWhiteSpace l = true /\ forallb isWhiteSpace r = true /\
    (forall c u, t = c :: u -> isWhiteSpace c = false) /\
    (forall u c, t = u ++ [c] -> isWhiteSpace c = false).

(** ** ResponseProcessor: the thinking flag *)

Definition setThinkingState (thinking : bool) : M unit :=
  fun s => (Ok tt, mkState (lastThinkingContent s) (lastAnswerContent s) thinking).

Definition getThinkingState : M bool := fun s => (Ok (isThinking s), s).

(** ** ModelHandler: what the streaming handlers show

    [handleOpenAIStreaming] and [handleGeminiStreaming] pass the same
    callback to the transport (lines 335-353 and 473-491 of
    chat-controller.js).  The callback is modelled by the text it hands to
    [UIController.updateMessageContent]; its first parameter [chunk] and
    the local [streamedResponse] are never read. *)
Definition streamCallback (settings : Settings) (fullText : jsstring) : M jsstring :=
  if enableCoT settings then
    processed <- processPartialCoTResponse fullText ;;
    stillThinking <- getThinkingState ;;
    (if stillThinking && includes fullText Answer
     then setThinkingState false else ret tt) ;;;
    ret (formatResponseForDisplay processed settings)
  else
    ret fullText.

(** A run of calls of the callback, one per snapshot, in order. *)
Fixpoint forEachSnapshot {A} (callback : jsstring -> M A) (snapshots : list jsstring)
  : M (list A) :=
  match snapshots with
  | [] => ret []
  | t :: rest =>
      x <- callback t ;;
      xs <- forEachSnapshot callback rest ;;
      ret (x :: xs)
  end.

(** ** UIController: rendering a message text as HTML (ui-controller.js) *)

(** [s.replace(/\n/g, '<br>')] *)
Definition replaceNewlines (s : jsstring) : jsstring :=
  flat_map (fun c => if N.eqb c 10 then lit "<br>" else [c]) s.

(** [text.split('\n')]: never the empty array. *)
Fixpoint splitLines (text : jsstring) : list jsstring :=
  match text with
  | [] => [[]]
  | c :: rest =>
      if N.eqb c 10 then [] :: splitLines rest
      else match splitLines rest with
           | l :: ls => (c :: l) :: ls
           | [] => [[c]]
           end
  end.

(** The double quote of the HTML attributes. *)
Definition dq : jsstring := [34%N].

Definition fence : jsstring := lit "```".

(** The variables of the loop of [formatCodeBlocks]. *)
Record CodeScan := mkScan {
  formatted : jsstring;
  insideCode : bool;
  codeBlockLang : jsstring;
  currentText : jsstring
}.

(** The template literal of [formatTextWithReasoningHighlights]: two
    sections, separated by the line break and the 32 spaces of indentation
    that the literal spans in the source. *)
Definition reasoningSections (thinkingHtml answerHtml : jsstring) : jsstring :=
  lit "<div class=" ++ dq ++ lit "thinking-section" ++ dq
    ++ lit "><strong>Thinking:</strong><br>" ++ thinkingHtml ++ lit "</div>"
    ++ [10%N] ++ repeat 32%N 32
    ++ lit "<div class=" ++ dq ++ lit "answer-section" ++ dq
    ++ lit "><strong>Answer:</strong><br>" ++ answerHtml ++ lit "</div>".

(** The opening tag of a code block. *)
Definition codeBlockOpen (lang : jsstring) : jsstring :=
  lit "<pre><code class=" ++ dq ++ lit "language-" ++ lang ++ dq ++ lit ">".

Section UIController.

(** [escapeHtml] goes through the DOM ([div.textContent = html] and back
    through [div.innerHTML]); what the browser does there is kept
    abstract. *)
Variable escapeHtml : jsstring -> jsstring.

(** The two reads of entry 1 happen under the test that both matches are
    not [null]. *)
Definition formatTextWithReasoningHighlights (text : jsstring) : jsstring :=
  let escapedText := escapeHtml text in
  let formattedText := replaceNewlines escapedText in
  if includes text Thinking && includes text Answer then
    match matchThinking text, matchAnswer text with
    | Some g1, Some g2 =>
        let thinkingContent := escapeHtml (trim g1) in
        let answerContent := escapeHtml (trim g2) in
        reasoningSections (replaceNewlines thinkingContent)
          (replaceNewlines answerContent)
    | _, _ => formattedText
    end
  else formattedText.

(** One turn of the loop over the lines. *)
Definition scanLine (st : CodeScan) (line : jsstring) : CodeScan :=
  if startsWith line fence then
    if negb (insideCode st) then
      let flushed :=
        if truthyString (currentText st)
        then formatted st ++ lit "<div>"
               ++ formatTextWithReasoningHighlights (currentText st) ++ lit "</div>"
        else formatted st in
      let text' := if truthyString (currentText st) then [] else currentText st in
      let lang := trim (skipn 3 line) in
      mkScan (flushed ++ codeBlockOpen lang) true lang text'
    else
      mkScan (formatted st ++ lit "</code></pre>") false (codeBlockLang st)
             (currentText st)
  else if insideCode st then
    mkScan (formatted st ++ escapeHtml line ++ [10%N]) (insideCode st)
           (codeBlockLang st) (currentText st)
  else
    mkScan (formatted st) (insideCode st) (codeBlockLang st)
           (currentText st
              ++ (if truthyString (currentText st) then [10%N] else []) ++ line).

Definition formatCodeBlocks (text : jsstring) : jsstring :=
  let final := fold_left scanLine (splitLines text) (mkScan [] false [] []) in
  if truthyString (currentText final)
  then formatted final ++ formatTextWithReasoningHighlights (currentText final)
  else formatted final.

End UIController.

(** ** Lines of a text, for stating what [formatCodeBlocks] does *)

(** [lines.join('\n')], the inverse of [split('\n')]. *)
Fixpoint joinLines (lines : list jsstring) : jsstring :=
  match lines with
  | [] => []
  | [l] => l
  | l :: rest => l ++ 10%N :: joinLines rest
  end.

(** The text without its leading line breaks. *)
Fixpoint dropNewlines (s : jsstring) : jsstring :=
  match s with
  | [] => []
  | c :: rest => if N.eqb c 10 then dropNewlines rest else s
  end.

Definition noNewline (s : jsstring) : bool :=
  forallb (fun c => negb (N.eqb c 10)) s.

(** A line that is not a fence. *)
Definition plainLine (l : jsstring) : bool :=
  noNewline l && negb (startsWith l fence).

(** What the loop of [formatCodeBlocks] gathers in [currentText] from a
    run of lines outside a code block. *)
Definition gather (current : jsstring) (lines : list jsstring) : jsstring :=
  fold_left
    (fun cur line => cur ++ (if truthyString cur then [10%N] else []) ++ line)
    lines current.

(** ** Sequences of calls of ResponseProcessor

    The functions of the public API that read or write the private state,
    called one after the other by the rest of the program. *)
Inductive Call :=
| CallProcessCoTResponse (response : jsstring)
| CallProcessPartialCoTResponse (fullText : jsstring)
| CallSetThinkingState (thinking : bool)
| CallGetThinkingState
| CallResetState.

Definition runCall (st : ModuleState) (c : Call) : ModuleState :=
  match c with
  | CallProcessCoTResponse response => snd (processCoTResponse response st)
  | CallProcessPartialCoTResponse fullText => snd (processPartialCoTResponse fullText st)
  | CallSetThinkingState thinking => snd (setThinkingState thinking st)
  | CallGetThinkingState => snd (getThinkingState st)
  | CallResetState => snd (resetState st)
  end.

Definition runCalls (calls : list Call) (st : ModuleState) : ModuleState :=
  fold_left runCall calls st.

(** Both remembered contents are free of surrounding white space. *)
Definition StateTrimmed (st : ModuleState) : Prop :=
  trim (lastThinkingContent st) = lastThinkingContent st /\
  trim (lastAnswerContent st) = lastAnswerContent st.

(* ================================================================== *)
(** * Part II: properties *)
(* ================================================================== *)

(** ** Scanning for a literal *)

Lemma app_suffix_of_longer (u v post r : jsstring) :
  u ++ post = v ++ r -> List.length u <= List.length v ->
  exists x, post = x ++ r.
Proof.
  revert v. induction u as [|c u IH]; intros v H L.
  - now exists v.
  - destruct v as [|d v]; simpl in *; [lia|].
    injection H as _ H. apply (IH v H). lia.
Qed.

Section Scan.

Variable p : jsstring.

Lemma startsWith_app (t : jsstring) : startsWith (p ++ t) p = true.
Proof.
  induction p as [|a q IH]; simpl; [reflexivity|].
  now rewrite N.eqb_refl, IH.
Qed.

Lemma startsWith_skipn (s : jsstring) :
  startsWith s p = true -> s = p ++ skipn (List.length p) s.
Proof.
  revert s. induction p as [|a q IH]; intros s H; simpl in *; [reflexivity|].
  destruct s as [|b s']; [discriminate|].
  apply andb_true_iff in H as [Hab Hq].
  apply N.eqb_eq in Hab. subst b. f_equal. now apply IH.
Qed.

Lemma startsWith_true_iff (s : jsstring) :
  startsWith s p = true <-> exists t, s = p ++ t.
Proof.
  split.
  - intros H. eexists. now apply startsWith_skipn.
  - intros [t ->]. apply startsWith_app.
Qed.

Lemma startsWith_includes (s : jsstring) :
  startsWith s p = true -> includes s p = true.
Proof.
  intros H. destruct s; simpl in *; now rewrite H.
Qed.

Lemma includes_true_iff (s : jsstring) :
  includes s p = true <-> exists a b, s = a ++ p ++ b.
Proof.
  split.
  - induction s as [|c s' IH]; simpl; intros H.
    + rewrite orb_false_r in H. apply startsWith_true_iff in H as [t Ht].
      now exists [], t.
    + apply orb_true_iff in H as [H|H].
      * apply startsWith_true_iff in H as [t Ht]. now exists [], t.
      * destruct (IH H) as (a & b & ->). now exists (c :: a), b.
  - intros (a & b & ->). induction a as [|c a IH]; simpl.
    + apply startsWith_includes, startsWith_app.
    + rewrite IH. apply orb_true_r.
Qed.

Lemma splitFirst_FirstOcc (s pre post : jsstring) :
  splitFirst s p = Some (pre, post) -> FirstOcc p s pre post.
Proof.
  revert pre post. induction s as [|c s' IH]; intros pre post H.
  - simpl in H. destruct (startsWith [] p) eqn:E; [|discriminate].
    injection H as <- <-. split; [|intros; simpl; lia].
    now apply startsWith_skipn.
  - cbn [splitFirst] in H. destruct (startsWith (c :: s') p) eqn:E.
    + injection H as <- <-. split; [|intros; simpl; lia].
      now apply startsWith_skipn.
    + destruct (splitFirst s' p) as [[a b]|] eqn:R; [|discriminate].
      injection H as <- <-. destruct (IH _ _ eq_refl) as [Heq Hmin].
      split; [simpl; now f_equal|].
      intros pre' post' H'. destruct pre' as [|c' pre'].
      * simpl in H'. rewrite H', startsWith_app in E. discriminate.
      * simpl in H'. injection H' as _ H'. simpl.
        apply le_n_S. eapply Hmin, H'.
Qed.

Lemma splitFirst_None_iff (s : jsstring) :
  splitFirst s p = None <-> includes s p = false.
Proof.
  induction s as [|c s' IH]; cbn [splitFirst includes].
  - destruct (startsWith [] p); simpl; split; congruence.
  - destruct (startsWith (c :: s') p); simpl; [split; congruence|].
    rewrite <- IH. destruct (splitFirst s' p) as [[a b]|]; split; congruence.
Qed.

Lemma splitFirst_Some_iff (s : jsstring) :
  includes s p = true <-> exists pre post, splitFirst s p = Some (pre, post).
Proof.
  destruct (splitFirst s p) as [[a b]|] eqn:E.
  - split; [intros _; now exists a, b|intros _].
    destruct (includes s p) eqn:I; [reflexivity|].
    apply splitFirst_None_iff in I. congruence.
  - apply splitFirst_None_iff in E. rewrite E.
    split; [discriminate|intros (a & b & H); discriminate].
Qed.

Lemma FirstOcc_includes (s pre post : jsstring) :
  FirstOcc p s pre post -> includes s p = true.
Proof.
  intros [H _]. apply includes_true_iff. now exists pre, post.
Qed.

Lemma FirstOcc_unique (s pre post pre' post' : jsstring) :
  FirstOcc p s pre post -> FirstOcc p s pre' post' ->
  pre = pre' /\ post = post'.
Proof.
  intros [H1 M1] [H2 M2].
  assert (L : List.length pre = List.length pre').
  { apply Nat.le_antisymm; [eapply M1, H2 | eapply M2, H1]. }
  rewrite H1 in H2. clear - H2 L.
  revert pre' H2 L. induction pre as [|c a IH]; intros [|c' a'] H L;
    simpl in *; try discriminate.
  - split; [reflexivity|]. eapply app_inv_head, H.
  - injection H as -> H. injection L as L.
    destruct (IH _ H L) as [-> ->]. now split.
Qed.

Lemma FirstOcc_splitFirst (s pre post : jsstring) :
  FirstOcc p s pre post -> splitFirst s p = Some (pre, post).
Proof.
  intros H. pose proof (FirstOcc_includes H) as I.
  apply splitFirst_Some_iff in I as (a & b & E). rewrite E.
  apply splitFirst_FirstOcc in E.
  destruct (FirstOcc_unique H E) as [-> ->]. reflexivity.
Qed.

(** Every occurrence of [p] lies at or after the leftmost one: what
    follows it is a suffix of what follows the leftmost one. *)
Lemma FirstOcc_later (s pre post a r : jsstring) :
  FirstOcc p s pre post -> s = a ++ p ++ r -> exists x, post = x ++ r.
Proof.
  intros [E M] H. pose proof (M _ _ H) as L. rewrite E in H.
  rewrite !app_assoc in H. apply (app_suffix_of_longer _ _ _ _ H).
  rewrite !length_app. lia.
Qed.

End Scan.

(** ** Trimming *)

Lemma trimStart_split (s : jsstring) :
  exists l, s = l ++ trimStart s /\ forallb isWhiteSpace l = true.
Proof.
  induction s as [|c s' (l & E & W)]; [now exists []|].
  simpl. destruct (isWhiteSpace c) eqn:Hc.
  - exists (c :: l). simpl. rewrite Hc, W. split; [now f_equal|reflexivity].
  - now exists [].
Qed.

Lemma trimStart_head (s : jsstring) (c : codeUnit) (u : jsstring) :
  trimStart s = c :: u -> isWhiteSpace c = false.
Proof.
  induction s as [|d s' IH]; simpl; [discriminate|].
  destruct (isWhiteSpace d) eqn:Hd; [exact IH|].
  intros H. injection H as -> _. exact Hd.
Qed.

Lemma trimStart_nil_iff (s : jsstring) :
  trimStart s = [] <-> forallb isWhiteSpace s = true.
Proof.
  induction s as [|c s' IH]; simpl; [tauto|].
  destruct (isWhiteSpace c); simpl; [exact IH|split; discriminate].
Qed.

Lemma trim_Trimmed (s : jsstring) : Trimmed s (trim s).
Proof.
  unfold trim, trimEnd.
  destruct (trimStart_split s) as (l & El & Wl).
  destruct (trimStart_split (rev (trimStart s))) as (r & Er & Wr).
  exists l, (rev r). repeat split.
  - rewrite <- rev_app_distr, <- Er, rev_involutive. exact El.
  - exact Wl.
  - rewrite forallb_forall in *. intros x Hx. apply Wr. now apply in_rev.
  - intros c u H.
    destruct (trimStart s) as [|d w] eqn:T.
    + simpl in H. discriminate.
    + assert (d = c) as ->.
      { assert (R : rev (d :: w) = r ++ trimStart (rev (d :: w))) by exact Er.
        apply (f_equal (@rev _)) in R. rewrite rev_involutive, rev_app_distr, H in R.
        simpl in R. now injection R. }
      eapply trimStart_head, T.
  - intros u c H. apply (f_equal (@rev _)) in H.
    rewrite rev_involutive, rev_app_distr in H. simpl in H.
    eapply trimStart_head, H.
Qed.

Lemma trim_nil_iff (s : jsstring) :
  trim s = [] <-> forallb isWhiteSpace s = true.
Proof.
  split.
  - intros H. destruct (trim_Trimmed s) as (l & r & E & Wl & Wr & _).
    rewrite H in E. rewrite E. simpl. rewrite forallb_app, Wl, Wr. reflexivity.
  - intros H. apply trimStart_nil_iff in H. unfold trim. now rewrite H.
Qed.

(** ** The regular expressions *)

Lemma matchThinking_truthy (r : jsstring) :
  truthyMatch (matchThinking r) = includes r Thinking.
Proof.
  unfold matchThinking. destruct (splitFirst r Thinking) as [[a b]|] eqn:E.
  - symmetry. apply splitFirst_Some_iff. now exists a, b.
  - symmetry. now apply splitFirst_None_iff.
Qed.

Lemma matchAnswer_truthy (r : jsstring) :
  truthyMatch (matchAnswer r) = includes r Answer.
Proof.
  unfold matchAnswer. destruct (splitFirst r Answer) as [[a b]|] eqn:E.
  - symmetry. apply splitFirst_Some_iff. now exists a, b.
  - symmetry. now apply splitFirst_None_iff.
Qed.

Lemma matchThinking_span (r mid : jsstring) :
  matchThinking r = Some mid -> ReasoningSpan r mid.
Proof.
  unfold matchThinking, ReasoningSpan, BetweenMarkers.
  destruct (splitFirst r Thinking) as [[pre rest]|] eqn:E; [|discriminate].
  apply splitFirst_FirstOcc in E. intros H. injection H as H.
  destruct (splitFirst rest Answer) as [[m post]|] eqn:F.
  - subst m. left. exists pre, rest, post.
    split; [exact E|now apply splitFirst_FirstOcc].
  - subst mid. right. exists pre. split; [exact E|now apply splitFirst_None_iff].
Qed.

Lemma matchAnswer_span (r post : jsstring) :
  matchAnswer r = Some post -> AnswerSpan r post.
Proof.
  unfold matchAnswer, AnswerSpan.
  destruct (splitFirst r Answer) as [[pre b]|] eqn:E; [|discriminate].
  intros H. injection H as <-. exists pre. now apply splitFirst_FirstOcc.
Qed.

Lemma ReasoningSpan_unique (r m1 m2 : jsstring) :
  ReasoningSpan r m1 -> ReasoningSpan r m2 -> m1 = m2.
Proof.
  intros [(p1 & r1 & q1 & T1 & A1)|(p1 & T1 & N1)]
         [(p2 & r2 & q2 & T2 & A2)|(p2 & T2 & N2)].
  - destruct (FirstOcc_unique T1 T2) as [_ <-].
    now destruct (FirstOcc_unique A1 A2).
  - destruct (FirstOcc_unique T1 T2) as [_ <-].
    apply FirstOcc_includes in A1. congruence.
  - destruct (FirstOcc_unique T1 T2) as [_ <-].
    apply FirstOcc_includes in A2. congruence.
  - now destruct (FirstOcc_unique T1 T2).
Qed.

Lemma AnswerSpan_unique (r a1 a2 : jsstring) :
  AnswerSpan r a1 -> AnswerSpan r a2 -> a1 = a2.
Proof.
  intros [p1 H1] [p2 H2]. now destruct (FirstOcc_unique H1 H2).
Qed.

(** The third branch of [processCoTResponse] tests a condition that no
    string satisfies: the first regular expression matches every string
    in which [Thinking:] occurs. *)
Lemma malformed_condition_false (r : jsstring) :
  includes r Thinking && negb (truthyMatch (matchThinking r)) = false.
Proof.
  rewrite matchThinking_truthy. apply andb_negb_r.
Qed.

(** ** The three reachable branches of [processCoTResponse] *)

Lemma processCoTResponse_both (text : jsstring) (st : ModuleState) :
  includes text Thinking = true -> includes text Answer = true ->
  exists mid post,
    ReasoningSpan text mid /\ AnswerSpan text post /\
    processCoTResponse text st =
      (Ok (mkProcessed (trim mid) (trim post) true None None),
       mkState (trim mid) (trim post) (isThinking st)).
Proof.
  intros HT HA. unfold processCoTResponse.
  pose proof (matchThinking_truthy text) as TT.
  pose proof (matchAnswer_truthy text) as TA.
  rewrite HT in TT. rewrite HA in TA.
  destruct (matchThinking text) as [mid|] eqn:MT; [|discriminate].
  destruct (matchAnswer text) as [post|] eqn:MA; [|discriminate].
  exists mid, post. split; [now apply matchThinking_span|].
  split; [now apply matchAnswer_span|reflexivity].
Qed.

Lemma processCoTResponse_prefix (text : jsstring) (st : ModuleState) :
  startsWith text Thinking = true -> includes text Answer = false ->
  let reasoning := trim (skipn (List.length Thinking) text) in
  processCoTResponse text st =
    (Ok (mkProcessed reasoning (lastAnswerContent st) true (Some true)
           (Some (lit "thinking"))),
     mkState reasoning (lastAnswerContent st) (isThinking st)).
Proof.
  intros HS HA. unfold processCoTResponse.
  rewrite matchAnswer_truthy, HA, andb_false_r, HS. simpl negb. cbn [andb].
  unfold replaceLeadingThinking. rewrite HS. reflexivity.
Qed.

Lemma processCoTResponse_default (text : jsstring) (st : ModuleState) :
  includes text Thinking && includes text Answer = false ->
  startsWith text Thinking && negb (includes text Answer) = false ->
  processCoTResponse text st = (Ok (mkProcessed [] text false None None), st).
Proof.
  intros H1 H2. unfold processCoTResponse.
  rewrite matchThinking_truthy, matchAnswer_truthy, H1, H2, andb_negb_r.
  reflexivity.
Qed.

(** ** The branches of [processPartialCoTResponse] *)

Lemma processPartialCoTResponse_reasoning (text : jsstring) (st : ModuleState) :
  includes text Thinking = true -> includes text Answer = false ->
  processPartialCoTResponse text st =
    (Ok (mkProcessed (trim (replaceUpToThinking [] text)) [] true (Some true)
           (Some (lit "thinking"))), st).
Proof.
  intros HT HA. unfold processPartialCoTResponse. now rewrite HT, HA.
Qed.

Lemma processPartialCoTResponse_both (text : jsstring) (st : ModuleState) :
  includes text Thinking = true -> includes text Answer = true ->
  exists mid post,
    ReasoningSpan text mid /\ AnswerSpan text post /\
    processPartialCoTResponse text st =
      (Ok (mkProcessed (trim mid) (trim post) true (Some false) None), st).
Proof.
  intros HT HA. unfold processPartialCoTResponse.
  pose proof (matchThinking_truthy text) as TT.
  pose proof (matchAnswer_truthy text) as TA.
  rewrite HT in *. rewrite HA in *. cbn [negb andb].
  destruct (matchThinking text) as [mid|] eqn:MT; [|discriminate].
  destruct (matchAnswer text) as [post|] eqn:MA; [|discriminate].
  exists mid, post. split; [now apply matchThinking_span|].
  split; [now apply matchAnswer_span|reflexivity].
Qed.

Lemma processPartialCoTResponse_default (text : jsstring) (st : ModuleState) :
  includes text Thinking = false ->
  processPartialCoTResponse text st =
    (Ok (mkProcessed [] text false None None), st).
Proof.
  intros HT. unfold processPartialCoTResponse. now rewrite HT.
Qed.

Lemma includes_false_startsWith (s p : jsstring) :
  includes s p = false -> startsWith s p = false.
Proof.
  intros H. destruct (startsWith s p) eqn:E; [|reflexivity].
  apply startsWith_includes in E. congruence.
Qed.

(** Every call of either parser returns normally: the two reads of entry 1
    of a match result are guarded by the test that precedes them. *)
Lemma processCoTResponse_returns (text : jsstring) (st : ModuleState) :
  exists p st', processCoTResponse text st = (Ok p, st').
Proof.
  destruct (includes text Thinking && includes text Answer) eqn:B.
  - apply andb_true_iff in B as [HT HA].
    destruct (processCoTResponse_both text st HT HA) as (m & a & _ & _ & E).
    eauto.
  - destruct (startsWith text Thinking && negb (includes text Answer)) eqn:P.
    + apply andb_true_iff in P as [HS HA]. apply negb_true_iff in HA.
      rewrite (processCoTResponse_prefix text st HS HA). eauto.
    + rewrite (processCoTResponse_default text st B P). eauto.
Qed.

Lemma processPartialCoTResponse_returns (text : jsstring) (st : ModuleState) :
  exists p, processPartialCoTResponse text st = (Ok p, st).
Proof.
  destruct (includes text Thinking) eqn:HT.
  - destruct (includes text Answer) eqn:HA.
    + destruct (processPartialCoTResponse_both text st HT HA)
        as (m & a & _ & _ & E). eauto.
    + rewrite (processPartialCoTResponse_reasoning text st HT HA). eauto.
  - rewrite (processPartialCoTResponse_default text st HT). eauto.
Qed.

(* ================================================================== *)
(** * Part III: the properties of the specification *)
(* ================================================================== *)

(** ** Both markers present *)

(** C1, as stated, fails on a text in which [Answer:] only occurs before
    [Thinking:]: both markers occur, yet there is no text between
    [Thinking:] and a following [Answer:]; the reasoning returned is the
    text after [Thinking:] up to the end. *)
Lemma processCoTResponse_answer_before_thinking :
  let text := lit "Answer: x Thinking: y" in
  includes text Thinking = true /\ includes text Answer = true /\
  (forall a mid b, text <> a ++ Thinking ++ mid ++ Answer ++ b) /\
  (forall mid, ~ BetweenMarkers text mid) /\
  processCoTResponse text initialState =
    (Ok (mkProcessed (lit "y") (lit "x Thinking: y") true None None),
     mkState (lit "y") (lit "x Thinking: y") false).
Proof.
  cbv zeta. split; [reflexivity|]. split; [reflexivity|].
  split; [|split; [|reflexivity]].
  - intros a mid b H.
    assert (F : FirstOcc Thinking (lit "Answer: x Thinking: y")
                  (lit "Answer: x ") (lit " y"))
      by now apply splitFirst_FirstOcc.
    destruct (FirstOcc_later _ _ F H) as [x E].
    assert (I : includes (lit " y") Answer = true).
    { rewrite E. apply includes_true_iff. exists (x ++ mid), b.
      now rewrite <- app_assoc. }
    vm_compute in I. discriminate.
  - intros mid (pre & rest & post & HT & HA).
    apply FirstOcc_splitFirst in HT.
    vm_compute in HT. injection HT as _ <-.
    apply FirstOcc_includes in HA. vm_compute in HA. discriminate.
Qed.

(** C1 (amended): for every text in which both markers occur,
    [processCoTResponse] returns as reasoning the trimmed text between the
    first [Thinking:] and the first [Answer:] after it, or up to the end of
    the text when no [Answer:] follows; as answer the trimmed text after the
    first [Answer:] of the text; the result is structured, complete and not
    partial, and both values are stored in the state.  In particular the
    text ["Thinking: because X\nAnswer: Y"] gives reasoning ["because X"]
    and answer ["Y"]. *)
Theorem processCoTResponse_both_markers :
  (forall (text : jsstring) (st : ModuleState),
     includes text Thinking = true -> includes text Answer = true ->
     exists mid post p,
       ReasoningSpan text mid /\ AnswerSpan text post /\
       processCoTResponse text st =
         (Ok p, mkState (trim mid) (trim post) (isThinking st)) /\
       thinking p = trim mid /\ answer p = trim post /\
       Trimmed mid (thinking p) /\ Trimmed post (answer p) /\
       isStructured p = true /\ stageOf p = COMPLETE /\ isPartial p = false) /\
  (forall st : ModuleState,
     processCoTResponse (lit "Thinking: because X" ++ [10%N] ++ lit "Answer: Y") st =
       (Ok (mkProcessed (lit "because X") (lit "Y") true None None),
        mkState (lit "because X") (lit "Y") (isThinking st))).
Proof.
  split.
  - intros text st HT HA.
    destruct (processCoTResponse_both text st HT HA) as (mid & post & RS & AS & E).
    exists mid, post, (mkProcessed (trim mid) (trim post) true None None).
    repeat split; try assumption; apply trim_Trimmed.
  - intros st. reflexivity.
Qed.

Lemma processCoTResponse_both_markers_witness :
  let text := lit "Thinking: because X" ++ [10%N] ++ lit "Answer: Y" in
  exists mid post p,
    ReasoningSpan text mid /\ AnswerSpan text post /\
    processCoTResponse text initialState =
      (Ok p, mkState (trim mid) (trim post) false) /\
    thinking p = trim mid /\ answer p = trim post /\
    Trimmed mid (thinking p) /\ Trimmed post (answer p) /\
    isStructured p = true /\ stageOf p = COMPLETE /\ isPartial p = false.
Proof.
  cbv zeta.
  apply (proj1 processCoTResponse_both_markers _ initialState); reflexivity.
Defined.

(** ** [Thinking:] inside the text and no [Answer:] *)

(** C2: the code does not do what the claim says.  For every text that
    contains [Thinking:], does not start with it and contains no [Answer:],
    [processCoTResponse] falls through to its last return: no reasoning,
    the whole text as answer, not structured, [partial] not set.  The
    branch that would strip the text up to the marker is guarded by
    [!thinkingMatch], which is false whenever [Thinking:] occurs. *)
Theorem processCoTResponse_thinking_inside :
  forall (text : jsstring) (st : ModuleState),
    includes text Thinking = true -> startsWith text Thinking = false ->
    includes text Answer = false ->
    exists p,
      processCoTResponse text st = (Ok p, st) /\
      thinking p = [] /\ answer p = text /\
      isStructured p = false /\ isPartial p = false.
Proof.
  intros text st HT HS HA.
  exists (mkProcessed [] text false None None).
  rewrite processCoTResponse_default; [now repeat split| |].
  - now rewrite HA, andb_false_r.
  - now rewrite HS.
Qed.

Lemma processCoTResponse_thinking_inside_witness :
  let text := lit "Hello Thinking: abc" in
  (exists p,
     processCoTResponse text initialState = (Ok p, initialState) /\
     thinking p = [] /\ answer p = text /\
     isStructured p = false /\ isPartial p = false) /\
  trim (replaceLeadingThinking [] (replaceUpToThinking Thinking text)) = lit "abc".
Proof.
  cbv zeta. split.
  - apply processCoTResponse_thinking_inside; reflexivity.
  - reflexivity.
Defined.

(** ** The waiting indicator *)

(** C3, as stated, fails when chain-of-thought is disabled (and likewise
    when the classification is not structured): the first test of
    [formatResponseForDisplay] returns the answer as it is, here the empty
    string, whatever [showThinking] says. *)
Lemma formatResponseForDisplay_empty_without_CoT :
  let processed := mkProcessed (lit "because X") [] true (Some true) None in
  let settings := mkSettings false false false in
  answer processed = [] /\ showThinking settings = false /\
  formatResponseForDisplay processed settings = [] /\
  formatResponseForDisplay processed settings <> placeholder.
Proof.
  cbv zeta. repeat split. discriminate.
Qed.

(** C3 (amended): for every structured classification with an empty answer
    and every configuration with chain-of-thought enabled and
    [showThinking] off, [formatResponseForDisplay] returns the waiting
    indicator, which is not the empty string. *)
Theorem formatResponseForDisplay_placeholder :
  forall (processed : Processed) (settings : Settings),
    answer processed = [] -> showThinking settings = false ->
    enableCoT settings = true -> hasStructuredResponse processed = true ->
    formatResponseForDisplay processed settings = placeholder /\
    formatResponseForDisplay processed settings <> [].
Proof.
  intros processed settings HA HS HE HH.
  assert (E : formatResponseForDisplay processed settings = placeholder).
  { unfold formatResponseForDisplay. now rewrite HE, HH, HS, HA. }
  split; [exact E|]. rewrite E. discriminate.
Qed.

Lemma formatResponseForDisplay_placeholder_witness :
  let processed := mkProcessed (lit "because X") [] true (Some true)
                     (Some (lit "thinking")) in
  let settings := mkSettings true true false in
  formatResponseForDisplay processed settings = placeholder /\
  formatResponseForDisplay processed settings <> [].
Proof.
  cbv zeta. apply formatResponseForDisplay_placeholder; reflexivity.
Defined.

(** ** Complete classifications *)

(** C4, as stated, fails when nothing but white space follows [Answer:]:
    both parsers return a structured, non-partial classification, hence one
    at stage COMPLETE, whose answer is empty. *)
Lemma complete_with_empty_answer :
  let text := lit "Thinking: a" ++ [10%N] ++ lit "Answer:" in
  (exists p st', processCoTResponse text initialState = (Ok p, st') /\
                 stageOf p = COMPLETE /\ answer p = []) /\
  (exists p st', processPartialCoTResponse text initialState = (Ok p, st') /\
                 stageOf p = COMPLETE /\ answer p = []).
Proof.
  cbv zeta. split.
  - exists (mkProcessed (lit "a") [] true None None), (mkState (lit "a") [] false).
    repeat split.
  - exists (mkProcessed (lit "a") [] true (Some false) None), initialState.
    repeat split.
Qed.

(** C4 (amended): a classification returned by either parser is at stage
    COMPLETE only if both markers occur in the text; its answer is then the
    trimmed text after the first [Answer:], which is empty exactly when
    that text consists of white space. *)
Theorem complete_stage_both_markers :
  forall (text : jsstring) (st st' : ModuleState) (p : Processed),
    processCoTResponse text st = (Ok p, st') \/
    processPartialCoTResponse text st = (Ok p, st') ->
    stageOf p = COMPLETE ->
    includes text Thinking = true /\ includes text Answer = true /\
    exists post,
      AnswerSpan text post /\ answer p = trim post /\
      (answer p = [] <-> forallb isWhiteSpace post = true).
Proof.
  intros text st st' p H C.
  destruct (includes text Thinking) eqn:HT.
  - destruct (includes text Answer) eqn:HA.
    + split; [reflexivity|]. split; [reflexivity|].
      destruct H as [H|H].
      * destruct (processCoTResponse_both text st HT HA) as (m & a & _ & AS & E).
        rewrite E in H. injection H as <- _. exists a.
        repeat split; try assumption; simpl; apply trim_nil_iff.
      * destruct (processPartialCoTResponse_both text st HT HA)
          as (m & a & _ & AS & E).
        rewrite E in H. injection H as <- _. exists a.
        repeat split; try assumption; simpl; apply trim_nil_iff.
    + exfalso. destruct H as [H|H].
      * destruct (startsWith text Thinking) eqn:HS.
        -- rewrite (processCoTResponse_prefix text st HS HA) in H.
           injection H as <- _. discriminate C.
        -- rewrite processCoTResponse_default in H;
             [|now rewrite HT, HA|now rewrite HS].
           injection H as <- _. discriminate C.
      * rewrite (processPartialCoTResponse_reasoning text st HT HA) in H.
        injection H as <- _. discriminate C.
  - exfalso. destruct H as [H|H].
    + rewrite processCoTResponse_default in H;
        [|now rewrite HT|now rewrite (includes_false_startsWith _ _ HT)].
      injection H as <- _. discriminate C.
    + rewrite (processPartialCoTResponse_default text st HT) in H.
      injection H as <- _. discriminate C.
Qed.

Lemma complete_stage_both_markers_witness :
  let text := lit "Thinking: ab" ++ [10%N] ++ lit "Answer: c" in
  includes text Thinking = true /\ includes text Answer = true /\
  exists post,
    AnswerSpan text post /\ answer (mkProcessed (lit "ab") (lit "c") true None None) = trim post /\
    (answer (mkProcessed (lit "ab") (lit "c") true None None) = [] <->
     forallb isWhiteSpace post = true).
Proof.
  cbv zeta.
  apply (@complete_stage_both_markers _ initialState
           (mkState (lit "ab") (lit "c") false)).
  - left. reflexivity.
  - reflexivity.
Defined.

(** ** Reasoning only *)

(** C5: for every text that starts with [Thinking:] and contains no
    [Answer:], [processCoTResponse] returns the trimmed remainder after the
    prefix as reasoning (the remainder without its leading and trailing
    white space) and the state's [lastAnswerContent] as answer; the result
    is structured and partial, at stage REASONING, and the state's
    [lastThinkingContent] becomes the extracted reasoning. *)
Theorem processCoTResponse_thinking_only :
  forall (text : jsstring) (st : ModuleState),
    startsWith text Thinking = true -> includes text Answer = false ->
    exists rest p st',
      text = Thinking ++ rest /\
      processCoTResponse text st = (Ok p, st') /\
      thinking p = trim rest /\ Trimmed rest (thinking p) /\
      answer p = lastAnswerContent st /\
      isStructured p = true /\ stageOf p = REASONING /\ isPartial p = true /\
      lastThinkingContent st' = thinking p /\
      lastAnswerContent st' = lastAnswerContent st.
Proof.
  intros text st HS HA.
  exists (skipn (List.length Thinking) text).
  rewrite (processCoTResponse_prefix text st HS HA). cbv zeta.
  do 2 eexists. split; [now apply startsWith_skipn|].
  split; [reflexivity|]. split; [reflexivity|].
  split; [apply trim_Trimmed|]. now repeat split.
Qed.

Lemma processCoTResponse_thinking_only_witness :
  let text := lit "Thinking: still working" in
  let st := mkState [] (lit "earlier answer") true in
  (exists rest p st',
     text = Thinking ++ rest /\
     processCoTResponse text st = (Ok p, st') /\
     thinking p = trim rest /\ Trimmed rest (thinking p) /\
     answer p = lastAnswerContent st /\
     isStructured p = true /\ stageOf p = REASONING /\ isPartial p = true /\
     lastThinkingContent st' = thinking p /\
     lastAnswerContent st' = lastAnswerContent st) /\
  processCoTResponse text st =
    (Ok (mkProcessed (lit "still working") (lit "earlier answer") true
           (Some true) (Some (lit "thinking"))),
     mkState (lit "still working") (lit "earlier answer") true).
Proof.
  cbv zeta. split.
  - apply processCoTResponse_thinking_only; reflexivity.
  - reflexivity.
Defined.

(** ** A stream of snapshots *)

(** C6: after [resetState], feeding [processPartialCoTResponse] the
    snapshots ["Thinking: a"], ["Thinking: ab"], ["Thinking: ab\nAnswer: c"]
    gives the stages REASONING, REASONING, COMPLETE, and the answer of the
    last classification is ["c"]. *)
Theorem processPartialCoTResponse_stream :
  forall st : ModuleState,
    exists p1 p2 p3,
      (resetState ;;;
       feed processPartialCoTResponse
         [lit "Thinking: a"; lit "Thinking: ab";
          lit "Thinking: ab" ++ [10%N] ++ lit "Answer: c"]) st =
        (Ok [p1; p2; p3], initialState) /\
      map stageOf [p1; p2; p3] = [REASONING; REASONING; COMPLETE] /\
      answer p3 = lit "c".
Proof.
  intros st. do 3 eexists. split; [reflexivity|]. split; reflexivity.
Qed.

(** ** No marker *)

(** C7: for every text that contains neither marker, [processCoTResponse]
    returns no reasoning and the text itself as answer; the result is
    neither structured nor partial, at stage NONE. *)
Theorem processCoTResponse_no_marker :
  forall (t : jsstring) (st : ModuleState),
    includes t Thinking = false -> includes t Answer = false ->
    exists p,
      processCoTResponse t st = (Ok p, st) /\
      thinking p = [] /\ answer p = t /\
      isStructured p = false /\ isPartial p = false /\ stageOf p = NONE.
Proof.
  intros t st HT HA. exists (mkProcessed [] t false None None).
  rewrite processCoTResponse_default; [now repeat split| |].
  - now rewrite HT.
  - now rewrite (includes_false_startsWith _ _ HT).
Qed.

Lemma processCoTResponse_no_marker_witness :
  exists p,
    processCoTResponse (lit "Hello there") initialState = (Ok p, initialState) /\
    thinking p = [] /\ answer p = lit "Hello there" /\
    isStructured p = false /\ isPartial p = false /\ stageOf p = NONE.
Proof.
  apply processCoTResponse_no_marker; reflexivity.
Defined.

(** ** Totality and the empty string *)

(** C8: both parsers return normally, without an exception, on every
    string and in every state; on the empty string each returns the
    unstructured classification with empty reasoning and empty answer, at
    stage NONE and with the state unchanged, and
    [formatResponseForDisplay] maps that classification to the empty
    string under every configuration. *)
Theorem parsers_total :
  (forall text st, exists p st', processCoTResponse text st = (Ok p, st')) /\
  (forall text st, exists p, processPartialCoTResponse text st = (Ok p, st)) /\
  (forall st, processCoTResponse [] st = (Ok (mkProcessed [] [] false None None), st)) /\
  (forall st, processPartialCoTResponse [] st =
                (Ok (mkProcessed [] [] false None None), st)) /\
  stageOf (mkProcessed [] [] false None None) = NONE /\
  isStructured (mkProcessed [] [] false None None) = false /\
  (forall settings,
     formatResponseForDisplay (mkProcessed [] [] false None None) settings = []).
Proof.
  split; [exact processCoTResponse_returns|].
  split; [exact processPartialCoTResponse_returns|].
  repeat split.
  intros settings. unfold formatResponseForDisplay. simpl.
  now rewrite orb_true_r.
Qed.

(** ** Idempotence *)

(** C9: calling [processCoTResponse] a second time on the same text, in the
    state the first call left, returns the same classification as the
    first call and leaves that state as it is. *)
Theorem processCoTResponse_idempotent :
  forall (t : jsstring) (st : ModuleState),
    let first := processCoTResponse t st in
    let second := processCoTResponse t (snd first) in
    fst second = fst first /\ snd second = snd first.
Proof.
  intros t st. cbv zeta.
  destruct (includes t Thinking && includes t Answer) eqn:B.
  - apply andb_true_iff in B as [HT HA].
    destruct (processCoTResponse_both t st HT HA) as (m1 & a1 & R1 & A1 & E1).
    rewrite E1. cbn [snd fst].
    destruct (processCoTResponse_both t (mkState (trim m1) (trim a1) (isThinking st))
                HT HA) as (m2 & a2 & R2 & A2 & E2).
    rewrite E2. cbn [snd fst isThinking].
    rewrite (ReasoningSpan_unique R2 R1), (AnswerSpan_unique A2 A1). now split.
  - destruct (startsWith t Thinking && negb (includes t Answer)) eqn:P.
    + apply andb_true_iff in P as [HS HA]. apply negb_true_iff in HA.
      rewrite !(processCoTResponse_prefix _ _ HS HA). now split.
    + rewrite !(processCoTResponse_default _ _ B P). now split.
Qed.

(** ** [Answer:] without [Thinking:] *)

(** C10: for every text that contains [Answer:] but not [Thinking:], both
    parsers return the whole text, the marker included, as answer, with
    empty reasoning and not structured. *)
Theorem answer_marker_alone_unstructured :
  forall (text : jsstring) (st : ModuleState),
    includes text Answer = true -> includes text Thinking = false ->
    exists p,
      processCoTResponse text st = (Ok p, st) /\
      processPartialCoTResponse text st = (Ok p, st) /\
      thinking p = [] /\ answer p = text /\ isStructured p = false.
Proof.
  intros text st HA HT. exists (mkProcessed [] text false None None).
  rewrite (processPartialCoTResponse_default text st HT).
  rewrite processCoTResponse_default; [now repeat split| |].
  - now rewrite HT.
  - now rewrite (includes_false_startsWith _ _ HT).
Qed.

Lemma answer_marker_alone_unstructured_witness :
  exists p,
    processCoTResponse (lit "Answer: 42") initialState = (Ok p, initialState) /\
    processPartialCoTResponse (lit "Answer: 42") initialState = (Ok p, initialState) /\
    thinking p = [] /\ answer p = lit "Answer: 42" /\ isStructured p = false.
Proof.
  apply answer_marker_alone_unstructured; reflexivity.
Defined.

(* ================================================================== *)
(** * Part IV: further properties of the code *)
(* ================================================================== *)

(** ** More on trimming *)

Lemma trimStart_app_ws (l u : jsstring) :
  forallb isWhiteSpace l = true -> trimStart (l ++ u) = trimStart u.
Proof.
  induction l as [|c l IH]; simpl; [reflexivity|].
  intros H. apply andb_true_iff in H as [Hc Hl]. now rewrite Hc, IH.
Qed.

Lemma trimEnd_app_ws (u r : jsstring) :
  forallb isWhiteSpace r = true -> trimEnd (u ++ r) = trimEnd u.
Proof.
  intros H. unfold trimEnd. rewrite rev_app_distr, trimStart_app_ws; [reflexivity|].
  rewrite forallb_forall in *. intros x Hx. apply H. now apply in_rev.
Qed.

(** White space around an already trimmed string is all that [trim]
    removes. *)
Lemma trim_pad (l s r : jsstring) :
  forallb isWhiteSpace l = true -> forallb isWhiteSpace r = true ->
  trim (l ++ trim s ++ r) = trim s.
Proof.
  intros Hl Hr.
  destruct (trim_Trimmed s) as (l0 & r0 & _ & _ & _ & Hhead & Hlast).
  set (u := trim s) in *. unfold trim at 1.
  rewrite trimStart_app_ws by exact Hl.
  destruct u as [|c u'] eqn:U.
  - simpl. apply trimStart_nil_iff in Hr. now rewrite Hr.
  - assert (S1 : trimStart ((c :: u') ++ r) = (c :: u') ++ r).
    { simpl. now rewrite (Hhead c u' eq_refl). }
    rewrite S1, trimEnd_app_ws by exact Hr.
    unfold trimEnd.
    destruct (rev (c :: u')) as [|d w] eqn:R.
    + apply (f_equal (@rev _)) in R. rewrite rev_involutive in R. discriminate.
    + assert (Hd : isWhiteSpace d = false).
      { apply (Hlast (rev w) d). apply (f_equal (@rev _)) in R.
        now rewrite rev_involutive in R. }
      simpl. rewrite Hd. rewrite <- R. apply rev_involutive.
Qed.

Lemma trim_idempotent (s : jsstring) : trim (trim s) = trim s.
Proof.
  pose proof (trim_pad [] s [] eq_refl eq_refl) as H.
  simpl in H. now rewrite app_nil_r in H.
Qed.

(** ** A marker cannot straddle a code unit that it does not contain *)

Section Separator.

Variable p : jsstring.
Variable c : codeUnit.
Hypothesis c_not_in_p : ~ In c p.

Lemma startsWith_app_sep (x y : jsstring) :
  startsWith (x ++ c :: y) p = true -> startsWith x p = true.
Proof.
  revert x c_not_in_p. induction p as [|d q IH]; intros x Hc H; [reflexivity|].
  destruct x as [|e x]; simpl in *.
  - apply andb_true_iff in H as [H _]. apply N.eqb_eq in H. exfalso. apply Hc. now left.
  - apply andb_true_iff in H as [H1 H2]. rewrite H1. simpl.
    apply IH; [|exact H2]. intros I. apply Hc. now right.
Qed.

Lemma splitFirst_sep (x y : jsstring) :
  includes x p = false ->
  splitFirst (x ++ c :: y) p =
    match splitFirst y p with
    | Some (a, b) => Some (x ++ c :: a, b)
    | None => None
    end.
Proof.
  induction x as [|e x IH]; intros H.
  - simpl app. cbn [splitFirst].
    destruct (startsWith (c :: y) p) eqn:S; [|reflexivity].
    apply (startsWith_app_sep []) in S. simpl in H. rewrite S in H. discriminate.
  - cbn [includes] in H. apply orb_false_iff in H as [H1 H2].
    simpl app. cbn [splitFirst].
    destruct (startsWith (e :: x ++ c :: y) p) eqn:S.
    + apply (startsWith_app_sep (e :: x)) in S. congruence.
    + rewrite (IH H2). now destruct (splitFirst y p) as [[a b]|].
Qed.

Lemma includes_sep (x y : jsstring) :
  includes x p = false -> includes (x ++ c :: y) p = includes y p.
Proof.
  intros H. pose proof (@splitFirst_sep x y H) as E.
  destruct (includes y p) eqn:I.
  - apply splitFirst_Some_iff in I as (a & b & I). rewrite I in E.
    apply splitFirst_Some_iff. eauto.
  - apply splitFirst_None_iff in I. rewrite I in E.
    now apply splitFirst_None_iff.
Qed.

End Separator.

Lemma includes_middle (p l t r : jsstring) :
  includes (l ++ t ++ r) p = false -> includes t p = false.
Proof.
  intros H. destruct (includes t p) eqn:I; [|reflexivity].
  apply includes_true_iff in I as (a & b & ->).
  assert (X : includes (l ++ (a ++ p ++ b) ++ r) p = true).
  { apply includes_true_iff. exists (l ++ a), (b ++ r).
    now rewrite <- !app_assoc. }
  congruence.
Qed.

Lemma FirstOcc_before (p s pre post : jsstring) :
  p <> [] -> FirstOcc p s pre post -> includes pre p = false.
Proof.
  intros Hp [E M]. destruct (includes pre p) eqn:I; [|reflexivity].
  apply includes_true_iff in I as (a & b & I).
  assert (L : List.length pre <= List.length a).
  { apply (M a (b ++ p ++ post)). rewrite E, I. now rewrite <- !app_assoc. }
  rewrite I, !length_app in L. destruct p; [congruence|simpl in L; lia].
Qed.

Lemma ReasoningSpan_no_answer (text mid : jsstring) :
  ReasoningSpan text mid -> includes mid Answer = false.
Proof.
  intros [(pre & rest & post & _ & A)|(pre & _ & N)]; [|exact N].
  eapply FirstOcc_before; [|exact A]. discriminate.
Qed.

(** ** Parsing a text that [formatResponseForDisplay] produced *)

Lemma splitFirst_prefix (p y : jsstring) : splitFirst (p ++ y) p = Some ([], y).
Proof.
  apply FirstOcc_splitFirst. split; [reflexivity|]. intros; simpl; lia.
Qed.

Lemma Answer_without_space : ~ In 32%N Answer.
Proof. cbv. intuition discriminate. Qed.

Lemma Answer_without_newline : ~ In 10%N Answer.
Proof. cbv. intuition discriminate. Qed.

(** The text shown for a complete classification, with the two markers
    made visible. *)
Lemma display_complete_shape (t a : jsstring) :
  lit "Thinking: " ++ t ++ [10; 10]%N ++ lit "Answer: " ++ a =
  Thinking ++ 32%N :: (t ++ 10%N :: 10%N :: (Answer ++ 32%N :: a)).
Proof. reflexivity. Qed.

Lemma matchThinking_display (t a : jsstring) :
  includes t Answer = false ->
  matchThinking (Thinking ++ 32%N :: (t ++ 10%N :: 10%N :: (Answer ++ 32%N :: a)))
  = Some (32%N :: t ++ [10; 10]%N).
Proof.
  intros H. unfold matchThinking. rewrite splitFirst_prefix.
  change (32%N :: (t ++ 10%N :: 10%N :: (Answer ++ 32%N :: a)))
    with ((32%N :: t) ++ 10%N :: ([] ++ 10%N :: (Answer ++ 32%N :: a))).
  rewrite (@splitFirst_sep Answer 10%N Answer_without_newline (32%N :: t)) by exact H.
  rewrite (@splitFirst_sep Answer 10%N Answer_without_newline []) by reflexivity.
  rewrite splitFirst_prefix. reflexivity.
Qed.

Lemma matchAnswer_display (t a : jsstring) :
  includes t Answer = false ->
  matchAnswer (Thinking ++ 32%N :: (t ++ 10%N :: 10%N :: (Answer ++ 32%N :: a)))
  = Some (32%N :: a).
Proof.
  intros H. unfold matchAnswer.
  rewrite (@splitFirst_sep Answer 32%N Answer_without_space Thinking) by reflexivity.
  rewrite (@splitFirst_sep Answer 10%N Answer_without_newline t) by exact H.
  change (10%N :: (Answer ++ 32%N :: a)) with ([] ++ 10%N :: (Answer ++ 32%N :: a)).
  rewrite (@splitFirst_sep Answer 10%N Answer_without_newline []) by reflexivity.
  rewrite splitFirst_prefix. reflexivity.
Qed.

Lemma includes_display (t a : jsstring) :
  includes (Thinking ++ 32%N :: (t ++ 10%N :: 10%N :: (Answer ++ 32%N :: a))) Thinking = true /\
  includes (Thinking ++ 32%N :: (t ++ 10%N :: 10%N :: (Answer ++ 32%N :: a))) Answer = true.
Proof.
  split; apply includes_true_iff.
  - now exists [], (32%N :: (t ++ 10%N :: 10%N :: (Answer ++ 32%N :: a))).
  - exists (Thinking ++ 32%N :: t ++ [10; 10]%N), (32%N :: a).
    rewrite <- !app_assoc. simpl. now rewrite <- !app_assoc.
Qed.

Lemma trim_display_thinking (t : jsstring) :
  trim t = t -> trim (32%N :: t ++ [10; 10]%N) = t.
Proof.
  intros H. pose proof (trim_pad [32%N] t [10; 10]%N eq_refl eq_refl) as P.
  rewrite H in P. exact P.
Qed.

Lemma trim_display_answer (a : jsstring) :
  trim a = a -> trim (32%N :: a) = a.
Proof.
  intros H. pose proof (trim_pad [32%N] a [] eq_refl eq_refl) as P.
  rewrite app_nil_r, H in P. exact P.
Qed.

Lemma processCoTResponse_display (t a : jsstring) (st : ModuleState) :
  includes t Answer = false -> trim t = t -> trim a = a ->
  processCoTResponse (lit "Thinking: " ++ t ++ [10; 10]%N ++ lit "Answer: " ++ a) st =
    (Ok (mkProcessed t a true None None), mkState t a (isThinking st)).
Proof.
  intros H Ht Ha. rewrite display_complete_shape. unfold processCoTResponse.
  rewrite (@matchThinking_display t a H), (@matchAnswer_display t a H).
  cbn -[trim]. unfold bind, ret, setLastThinkingContent, setLastAnswerContent.
  cbn -[trim]. now rewrite (trim_display_thinking Ht), (trim_display_answer Ha).
Qed.

(** X1: with chain-of-thought and [showThinking] on, the text displayed
    for a reply that contains both markers parses back to the same
    classification: running [processCoTResponse] on the displayed text, in
    the state the first run left, returns the same object and leaves that
    state unchanged. *)
Theorem display_parses_back :
  forall (text : jsstring) (st : ModuleState) (settings : Settings),
    includes text Thinking = true -> includes text Answer = true ->
    enableCoT settings = true -> showThinking settings = true ->
    exists p st1,
      processCoTResponse text st = (Ok p, st1) /\
      processCoTResponse (formatResponseForDisplay p settings) st1 = (Ok p, st1).
Proof.
  intros text st settings HT HA HE HS.
  destruct (processCoTResponse_both text st HT HA) as (mid & post & RS & _ & E).
  do 2 eexists. split; [exact E|].
  unfold formatResponseForDisplay. rewrite HE, HS. cbn -[trim lit app].
  rewrite processCoTResponse_display; [reflexivity| | |].
  - pose proof (ReasoningSpan_no_answer RS) as N.
    destruct (trim_Trimmed mid) as (l & r & Em & _). rewrite Em in N.
    exact (includes_middle _ _ _ _ N).
  - apply trim_idempotent.
  - apply trim_idempotent.
Qed.

Lemma display_parses_back_witness :
  exists p st1,
    processCoTResponse (lit "Thinking: because X" ++ [10%N] ++ lit "Answer: Y")
      initialState = (Ok p, st1) /\
    processCoTResponse (formatResponseForDisplay p (mkSettings true true true)) st1
      = (Ok p, st1).
Proof.
  apply display_parses_back; reflexivity.
Defined.

(** ** The streaming parser against the final parser *)

Lemma replaceUpToThinking_prefix (text : jsstring) :
  startsWith text Thinking = true ->
  replaceUpToThinking [] text = skipn (List.length Thinking) text.
Proof.
  intros H. unfold replaceUpToThinking.
  rewrite (startsWith_skipn _ _ H) at 1. now rewrite splitFirst_prefix.
Qed.

(** What is shown while only reasoning has arrived. *)
Lemma formatResponseForDisplay_reasoning (r : jsstring) (settings : Settings) :
  formatResponseForDisplay
    (mkProcessed r [] true (Some true) (Some (lit "thinking"))) settings =
  if enableCoT settings
  then if showThinking settings then lit "Thinking: " ++ r else placeholder
  else [].
Proof.
  unfold formatResponseForDisplay.
  destruct (enableCoT settings), (showThinking settings); reflexivity.
Qed.

(** X2: the last snapshot of a stream and the final reply are the same
    text, parsed by two different functions.  When the text starts with
    [Thinking:], or contains [Answer:], or does not contain [Thinking:],
    and no answer is remembered in the state, the two functions return the
    same reasoning, the same answer and the same structure flag, and
    [formatResponseForDisplay] shows the same text for both under every
    settings. *)
Theorem partial_and_final_agree :
  forall (text : jsstring) (st : ModuleState) (settings : Settings),
    lastAnswerContent st = [] ->
    startsWith text Thinking = true \/ includes text Answer = true \/
    includes text Thinking = false ->
    exists p q st',
      processPartialCoTResponse text st = (Ok p, st) /\
      processCoTResponse text st = (Ok q, st') /\
      thinking p = thinking q /\ answer p = answer q /\
      hasStructuredResponse p = hasStructuredResponse q /\
      formatResponseForDisplay p settings = formatResponseForDisplay q settings.
Proof.
  intros text st settings HL H.
  destruct (includes text Thinking) eqn:HT.
  - destruct (includes text Answer) eqn:HA.
    + destruct (processPartialCoTResponse_both text st HT HA)
        as (m1 & a1 & R1 & A1 & E1).
      destruct (processCoTResponse_both text st HT HA)
        as (m2 & a2 & R2 & A2 & E2).
      rewrite (ReasoningSpan_unique R2 R1), (AnswerSpan_unique A2 A1) in E2.
      do 3 eexists. split; [exact E1|]. split; [exact E2|]. now repeat split.
    + destruct H as [HS|[H|H]]; try discriminate.
      rewrite (processPartialCoTResponse_reasoning text st HT HA).
      rewrite (processCoTResponse_prefix text st HS HA). cbv zeta.
      rewrite (replaceUpToThinking_prefix _ HS), HL.
      do 3 eexists. split; [reflexivity|]. split; [reflexivity|]. now repeat split.
  - rewrite (processPartialCoTResponse_default text st HT).
    rewrite processCoTResponse_default;
      [|now rewrite HT|now rewrite (includes_false_startsWith _ _ HT)].
    do 3 eexists. split; [reflexivity|]. split; [reflexivity|]. now repeat split.
Qed.

Lemma partial_and_final_agree_witness :
  exists p q st',
    processPartialCoTResponse (lit "Thinking: still working") initialState
      = (Ok p, initialState) /\
    processCoTResponse (lit "Thinking: still working") initialState = (Ok q, st') /\
    thinking p = thinking q /\ answer p = answer q /\
    hasStructuredResponse p = hasStructuredResponse q /\
    formatResponseForDisplay p (mkSettings true true false)
      = formatResponseForDisplay q (mkSettings true true false).
Proof.
  apply partial_and_final_agree; [reflexivity|left; reflexivity].
Defined.

(** ** The streaming callback *)

Lemma streamCallback_CoT (settings : Settings) (text : jsstring) (st : ModuleState) :
  enableCoT settings = true ->
  exists p,
    processPartialCoTResponse text st = (Ok p, st) /\
    streamCallback settings text st =
      (Ok (formatResponseForDisplay p settings),
       mkState (lastThinkingContent st) (lastAnswerContent st)
         (isThinking st && negb (includes text Answer))).
Proof.
  intros HE. destruct (processPartialCoTResponse_returns text st) as [p E].
  exists p. split; [exact E|].
  unfold streamCallback, bind. rewrite HE, E.
  unfold getThinkingState, setThinkingState, ret.
  destruct st as [lt la th]. cbn [isThinking lastThinkingContent lastAnswerContent].
  destruct th, (includes text Answer); reflexivity.
Qed.

Lemma streamCallback_plain (settings : Settings) (text : jsstring) (st : ModuleState) :
  enableCoT settings = false -> streamCallback settings text st = (Ok text, st).
Proof.
  intros HE. unfold streamCallback. now rewrite HE.
Qed.

(** X4: with chain-of-thought on and [showThinking] off, the text shown
    for a snapshot that contains [Thinking:] is never empty and never the
    reasoning: it is the waiting indicator as long as the snapshot has no
    [Answer:] or only white space after the first [Answer:], and from then
    on the trimmed text after the first [Answer:]. *)
Theorem stream_hides_reasoning :
  forall (settings : Settings) (text : jsstring) (st : ModuleState),
    enableCoT settings = true -> showThinking settings = false ->
    includes text Thinking = true ->
    exists shown st',
      streamCallback settings text st = (Ok shown, st') /\
      shown <> [] /\
      ((includes text Answer = false /\ shown = placeholder) \/
       (exists post,
          AnswerSpan text post /\
          shown = if forallb isWhiteSpace post then placeholder else trim post)).
Proof.
  intros settings text st HE HS HT.
  destruct (@streamCallback_CoT settings text st HE) as (p & EP & EC).
  rewrite EC. do 2 eexists. split; [reflexivity|].
  destruct (includes text Answer) eqn:HA.
  - destruct (processPartialCoTResponse_both text st HT HA)
      as (mid & post & _ & AS & E).
    rewrite E in EP. injection EP as <-.
    assert (F : formatResponseForDisplay
                  (mkProcessed (trim mid) (trim post) true (Some false) None) settings
                = if forallb isWhiteSpace post then placeholder else trim post).
    { unfold formatResponseForDisplay. rewrite HE, HS.
      cbn [negb orb hasStructuredResponse answer].
      destruct (forallb isWhiteSpace post) eqn:W.
      - apply trim_nil_iff in W. now rewrite W.
      - destruct (trim post) eqn:T; [|reflexivity].
        apply trim_nil_iff in T. congruence. }
    rewrite F. split.
    + destruct (forallb isWhiteSpace post) eqn:W; [discriminate|].
      intros T. apply trim_nil_iff in T. congruence.
    + right. exists post. now split.
  - rewrite (processPartialCoTResponse_reasoning text st HT HA) in EP.
    injection EP as <-. rewrite formatResponseForDisplay_reasoning, HE, HS.
    split; [discriminate|]. left. now split.
Qed.

Lemma stream_hides_reasoning_witness :
  exists shown st',
    streamCallback (mkSettings true true false)
      (lit "Thinking: ab" ++ [10%N] ++ lit "Answer: c") initialState
      = (Ok shown, st') /\
    shown <> [] /\
    ((includes (lit "Thinking: ab" ++ [10%N] ++ lit "Answer: c") Answer = false /\
      shown = placeholder) \/
     (exists post,
        AnswerSpan (lit "Thinking: ab" ++ [10%N] ++ lit "Answer: c") post /\
        shown = if forallb isWhiteSpace post then placeholder else trim post)).
Proof.
  apply stream_hides_reasoning; reflexivity.
Defined.

(** X5: over a whole stream the callback never throws and never touches
    the remembered reasoning and answer; it shows one text per snapshot;
    the thinking flag is still set afterwards exactly when it was set
    before, and chain-of-thought is off or no snapshot contained
    [Answer:]; with chain-of-thought off the texts shown are the snapshots
    themselves. *)
Theorem stream_thinking_flag :
  forall (settings : Settings) (snapshots : list jsstring) (st : ModuleState),
    exists shown,
      forEachSnapshot (streamCallback settings) snapshots st =
        (Ok shown,
         mkState (lastThinkingContent st) (lastAnswerContent st)
           (isThinking st &&
            negb (enableCoT settings &&
                  existsb (fun t => includes t Answer) snapshots))) /\
      List.length shown = List.length snapshots /\
      (enableCoT settings = false -> shown = snapshots).
Proof.
  intros settings snapshots. induction snapshots as [|t rest IH]; intros st.
  - exists []. destruct st as [lt la th]. cbn.
    rewrite andb_false_r, andb_true_r. now repeat split.
  - cbn [forEachSnapshot]. unfold bind at 1.
    destruct (enableCoT settings) eqn:HE.
    + destruct (@streamCallback_CoT settings t st HE) as (p & _ & EC). rewrite EC.
      destruct (IH (mkState (lastThinkingContent st) (lastAnswerContent st)
                      (isThinking st && negb (includes t Answer))))
        as (shown & ER & EL & _).
      unfold bind. rewrite ER.
      exists (formatResponseForDisplay p settings :: shown).
      split; [|split; [cbn [List.length]; now rewrite EL|discriminate]].
      unfold ret. cbn [existsb lastThinkingContent lastAnswerContent isThinking].
      f_equal. f_equal.
      destruct (isThinking st), (includes t Answer),
        (existsb (fun t => includes t Answer) rest); reflexivity.
    + rewrite (@streamCallback_plain settings t st HE).
      destruct (IH st) as (shown & ER & EL & EQ).
      unfold bind. rewrite ER. cbn.
      exists (t :: shown). split; [reflexivity|].
      split; [cbn; now rewrite EL|]. intros _. now rewrite EQ.
Qed.

(** ** An invariant of the private state *)

Lemma StateTrimmed_step (st : ModuleState) (c : Call) :
  StateTrimmed st -> StateTrimmed (runCall st c).
Proof.
  intros [IT IA]. destruct c as [text|text|b| |]; cbn [runCall].
  - destruct (includes text Thinking && includes text Answer) eqn:B.
    + apply andb_true_iff in B as [HT HA].
      destruct (processCoTResponse_both text st HT HA) as (m & a & _ & _ & E).
      rewrite E. split; apply trim_idempotent.
    + destruct (startsWith text Thinking && negb (includes text Answer)) eqn:P.
      * apply andb_true_iff in P as [HS HA]. apply negb_true_iff in HA.
        rewrite (processCoTResponse_prefix text st HS HA).
        split; [apply trim_idempotent|exact IA].
      * rewrite (processCoTResponse_default text st B P). now split.
  - destruct (processPartialCoTResponse_returns text st) as [p E].
    rewrite E. now split.
  - now split.
  - now split.
  - now split.
Qed.

(** X6: whatever sequence of calls of [processCoTResponse],
    [processPartialCoTResponse], [setThinkingState], [getThinkingState]
    and [resetState] is made, the remembered reasoning and the remembered
    answer stay free of leading and trailing white space if they were so
    at the start, as they are in the initial state. *)
Theorem state_stays_trimmed :
  forall (calls : list Call) (st : ModuleState),
    StateTrimmed st -> StateTrimmed (runCalls calls st).
Proof.
  unfold runCalls. induction calls as [|c calls IH]; intros st H; [exact H|].
  cbn [fold_left]. apply IH. now apply StateTrimmed_step.
Qed.

Lemma state_stays_trimmed_witness :
  StateTrimmed
    (runCalls [CallResetState;
               CallProcessCoTResponse (lit "Thinking:  a  " ++ [10%N] ++ lit "Answer:  b ");
               CallSetThinkingState true;
               CallProcessCoTResponse (lit "Thinking:   more  ")]
       initialState).
Proof.
  apply state_stays_trimmed. split; reflexivity.
Defined.

(** ** Lines *)

Lemma splitLines_nonempty (text : jsstring) : splitLines text <> [].
Proof.
  destruct text as [|c rest]; simpl; [discriminate|].
  destruct (N.eqb c 10); [discriminate|].
  destruct (splitLines rest); discriminate.
Qed.

Lemma splitLines_plain_app (l s : jsstring) :
  noNewline l = true -> splitLines (l ++ 10%N :: s) = l :: splitLines s.
Proof.
  induction l as [|c l IH]; intros H.
  - reflexivity.
  - cbn [noNewline forallb] in H. apply andb_true_iff in H as [Hc Hl].
    apply negb_true_iff in Hc. cbn [app splitLines]. rewrite Hc.
    unfold noNewline in IH. now rewrite (IH Hl).
Qed.

Lemma splitLines_plain (l : jsstring) : noNewline l = true -> splitLines l = [l].
Proof.
  induction l as [|c l IH]; intros H; [reflexivity|].
  cbn [noNewline forallb] in H. apply andb_true_iff in H as [Hc Hl].
  apply negb_true_iff in Hc. cbn [splitLines]. rewrite Hc.
  unfold noNewline in IH. now rewrite (IH Hl).
Qed.

(** [split] undoes [join] on lines that hold no line break. *)
Lemma splitLines_joinLines (lines : list jsstring) :
  lines <> [] -> forallb noNewline lines = true ->
  splitLines (joinLines lines) = lines.
Proof.
  induction lines as [|l rest IH]; intros N H; [congruence|].
  cbn [forallb] in H. apply andb_true_iff in H as [Hl Hr].
  destruct rest as [|l' rest'].
  - now apply splitLines_plain.
  - change (joinLines (l :: l' :: rest')) with (l ++ 10%N :: joinLines (l' :: rest')).
    rewrite (@splitLines_plain_app l _ Hl), IH; [reflexivity|discriminate|exact Hr].
Qed.

(** [join] undoes [split]. *)
Lemma joinLines_splitLines (text : jsstring) : joinLines (splitLines text) = text.
Proof.
  induction text as [|c rest IH]; [reflexivity|].
  cbn [splitLines]. destruct (N.eqb c 10) eqn:E.
  - apply N.eqb_eq in E. subst c.
    pose proof (splitLines_nonempty rest) as NE.
    destruct (splitLines rest) as [|l ls]; [congruence|].
    change (joinLines ([] :: l :: ls)) with (10%N :: joinLines (l :: ls)).
    now rewrite IH.
  - pose proof (splitLines_nonempty rest) as NE.
    destruct (splitLines rest) as [|l ls]; [congruence|].
    destruct ls as [|l' ls']; cbn [joinLines app] in *; now rewrite IH.
Qed.

Lemma gather_from_text (c : codeUnit) (cur : jsstring) (lines : list jsstring) :
  gather (c :: cur) lines = (c :: cur) ++ flat_map (fun l => 10%N :: l) lines.
Proof.
  revert c cur. induction lines as [|l rest IH]; intros c cur.
  - cbn. now rewrite app_nil_r.
  - cbn [gather fold_left truthyString app flat_map].
    change (fold_left _ rest ?x) with (gather x rest).
    rewrite IH. cbn [app]. now rewrite <- !app_assoc.
Qed.

Lemma flat_map_lines (lines : list jsstring) :
  lines <> [] ->
  flat_map (fun l => 10%N :: l) lines = 10%N :: joinLines lines.
Proof.
  induction lines as [|l rest IH]; intros N; [congruence|].
  destruct rest as [|l' rest'].
  - cbn. now rewrite app_nil_r.
  - cbn [flat_map] in *. rewrite IH by discriminate.
    cbn [app joinLines]. reflexivity.
Qed.

Lemma dropNewlines_join_empty (rest : list jsstring) :
  rest <> [] -> dropNewlines (joinLines ([] :: rest)) = dropNewlines (joinLines rest).
Proof.
  destruct rest as [|l rest']; [congruence|reflexivity].
Qed.

(** Leading empty lines are lost; the other lines are joined again. *)
Lemma gather_lines (lines : list jsstring) :
  forallb noNewline lines = true ->
  gather [] lines = dropNewlines (joinLines lines).
Proof.
  induction lines as [|l rest IH]; intros H; [reflexivity|].
  cbn [forallb] in H. apply andb_true_iff in H as [Hl Hr].
  destruct l as [|c l].
  - cbn [gather fold_left truthyString app].
    change (fold_left _ rest ?x) with (gather x rest). rewrite (IH Hr).
    destruct rest as [|l' rest']; [reflexivity|].
    now rewrite dropNewlines_join_empty by discriminate.
  - cbn [gather fold_left truthyString app].
    change (fold_left _ rest ?x) with (gather x rest).
    rewrite gather_from_text.
    cbn [noNewline forallb] in Hl. apply andb_true_iff in Hl as [Hc _].
    apply negb_true_iff in Hc.
    destruct rest as [|l' rest'].
    + cbn. now rewrite app_nil_r, Hc.
    + rewrite flat_map_lines by discriminate.
      change (joinLines ((c :: l) :: l' :: rest'))
        with (c :: l ++ 10%N :: joinLines (l' :: rest')).
      cbn [dropNewlines]. now rewrite Hc.
Qed.

Lemma splitLines_noNewline (text : jsstring) :
  forallb noNewline (splitLines text) = true.
Proof.
  induction text as [|c rest IH]; [reflexivity|].
  cbn [splitLines]. destruct (N.eqb c 10) eqn:E.
  - cbn [forallb]. now rewrite IH.
  - destruct (splitLines rest) as [|l ls]; cbn [forallb noNewline] in *.
    + now rewrite E.
    + now rewrite E.
Qed.

(** ** The loop of [formatCodeBlocks] *)

Lemma forallb_plainLine (lines : list jsstring) :
  forallb plainLine lines = true ->
  forallb noNewline lines = true /\
  forallb (fun l => negb (startsWith l fence)) lines = true.
Proof.
  induction lines as [|l rest IH]; intros H; [now split|].
  cbn [forallb] in *. apply andb_true_iff in H as [Hl Hr].
  apply andb_true_iff in Hl as [H1 H2]. destruct (IH Hr) as [I1 I2].
  now rewrite H1, H2, I1, I2.
Qed.

(** Outside a code block, lines that are not fences only grow
    [currentText]. *)
Lemma scan_plain (escapeHtml : jsstring -> jsstring) (lines : list jsstring)
      (f lang cur : jsstring) :
  forallb (fun l => negb (startsWith l fence)) lines = true ->
  fold_left (scanLine escapeHtml) lines (mkScan f false lang cur) =
  mkScan f false lang (gather cur lines).
Proof.
  revert cur. induction lines as [|l rest IH]; intros cur H; [reflexivity|].
  cbn [forallb] in H. apply andb_true_iff in H as [Hl Hr].
  apply negb_true_iff in Hl.
  cbn [fold_left]. unfold scanLine at 2. rewrite Hl.
  cbn [insideCode formatted codeBlockLang currentText].
  rewrite (IH _ Hr). reflexivity.
Qed.

(** Inside a code block, lines that are not fences are escaped and
    appended, each followed by a line break. *)
Lemma scan_code (escapeHtml : jsstring -> jsstring) (code : list jsstring)
      (f lang cur : jsstring) :
  forallb (fun l => negb (startsWith l fence)) code = true ->
  fold_left (scanLine escapeHtml) code (mkScan f true lang cur) =
  mkScan (f ++ flat_map (fun l => escapeHtml l ++ [10%N]) code) true lang cur.
Proof.
  revert f. induction code as [|l rest IH]; intros f H.
  - cbn. now rewrite app_nil_r.
  - cbn [forallb] in H. apply andb_true_iff in H as [Hl Hr].
    apply negb_true_iff in Hl.
    cbn [fold_left]. unfold scanLine at 2. rewrite Hl.
    cbn [insideCode formatted codeBlockLang currentText].
    rewrite (IH _ Hr). cbn [flat_map]. now rewrite <- !app_assoc.
Qed.

(** X7: a text none of whose lines starts with three backquotes (the
    backquotes may stand inside a line) is rendered by [formatCodeBlocks]
    as [formatTextWithReasoningHighlights] renders it, except that its
    leading line breaks are dropped first; if nothing else is left the
    result is the empty string. *)
Theorem formatCodeBlocks_without_fence_line :
  forall (escapeHtml : jsstring -> jsstring) (text : jsstring),
    forallb (fun l => negb (startsWith l fence)) (splitLines text) = true ->
    formatCodeBlocks escapeHtml text =
      if truthyString (dropNewlines text)
      then formatTextWithReasoningHighlights escapeHtml (dropNewlines text)
      else [].
Proof.
  intros escapeHtml text H. unfold formatCodeBlocks.
  rewrite (scan_plain escapeHtml _ _ _ _ H).
  cbn [currentText formatted app].
  now rewrite (gather_lines _ (splitLines_noNewline text)), joinLines_splitLines.
Qed.

Lemma formatCodeBlocks_without_fence_line_witness :
  let text := [10; 10]%N ++ lit "run ```make``` first" in
  formatCodeBlocks (fun s => s) text =
    if truthyString (dropNewlines text)
    then formatTextWithReasoningHighlights (fun s => s) (dropNewlines text)
    else [].
Proof.
  cbv zeta. apply formatCodeBlocks_without_fence_line. reflexivity.
Defined.

Lemma scan_open (escapeHtml : jsstring -> jsstring) (f lg cur lang : jsstring) :
  scanLine escapeHtml (mkScan f false lg cur) (fence ++ lang) =
  mkScan ((if truthyString cur
           then f ++ lit "<div>"
                  ++ formatTextWithReasoningHighlights escapeHtml cur ++ lit "</div>"
           else f) ++ codeBlockOpen (trim lang))
         true (trim lang) [].
Proof.
  unfold scanLine. rewrite startsWith_app.
  cbn [insideCode negb formatted currentText].
  change (skipn 3 (fence ++ lang)) with lang.
  destruct cur; reflexivity.
Qed.

Lemma scan_close (escapeHtml : jsstring -> jsstring) (f lg cur junk : jsstring) :
  scanLine escapeHtml (mkScan f true lg cur) (fence ++ junk) =
  mkScan (f ++ lit "</code></pre>") false lg cur.
Proof.
  unfold scanLine. now rewrite startsWith_app.
Qed.

(** X8: a text made of some ordinary lines, an opening fence line, code
    lines, a closing fence line and more ordinary lines is rendered as:
    the text before (without its leading line breaks) inside a [div] if
    there is any; the opening tag with the trimmed rest of the opening
    fence line as language, inserted as it is, without escaping; every
    code line escaped and followed by a line break; the closing tag; the
    text after (without its leading line breaks), not wrapped.  Whatever
    follows the backquotes on the closing fence line is dropped. *)
Theorem formatCodeBlocks_one_block :
  forall (escapeHtml : jsstring -> jsstring)
         (before code after : list jsstring) (lang junk : jsstring),
    forallb plainLine before = true -> noNewline lang = true ->
    forallb plainLine code = true -> noNewline junk = true ->
    forallb plainLine after = true ->
    formatCodeBlocks escapeHtml
      (joinLines (before ++ (fence ++ lang) :: code ++ (fence ++ junk) :: after)) =
    (if truthyString (dropNewlines (joinLines before))
     then lit "<div>"
            ++ formatTextWithReasoningHighlights escapeHtml
                 (dropNewlines (joinLines before))
            ++ lit "</div>"
     else [])
    ++ codeBlockOpen (trim lang)
    ++ flat_map (fun l => escapeHtml l ++ [10%N]) code
    ++ lit "</code></pre>"
    ++ (if truthyString (dropNewlines (joinLines after))
        then formatTextWithReasoningHighlights escapeHtml
               (dropNewlines (joinLines after))
        else []).
Proof.
  intros escapeHtml before code after lang junk HB HL HC HJ HA.
  destruct (forallb_plainLine _ HB) as [B1 B2].
  destruct (forallb_plainLine _ HC) as [C1 C2].
  destruct (forallb_plainLine _ HA) as [A1 A2].
  unfold formatCodeBlocks. rewrite splitLines_joinLines.
  - rewrite fold_left_app, (scan_plain escapeHtml _ _ _ _ B2).
    cbn [fold_left]. rewrite scan_open.
    rewrite fold_left_app, (scan_code escapeHtml _ _ _ _ C2).
    cbn [fold_left]. rewrite scan_close.
    rewrite (scan_plain escapeHtml _ _ _ _ A2).
    cbn [currentText formatted].
    rewrite (gather_lines _ B1), (gather_lines _ A1).
    destruct (truthyString (dropNewlines (joinLines before)));
      destruct (truthyString (dropNewlines (joinLines after)));
      cbn [app]; now rewrite <- ?app_assoc, ?app_nil_r.
  - destruct before; discriminate.
  - rewrite forallb_app, B1. cbn [forallb andb].
    rewrite forallb_app, C1. cbn [forallb andb].
    change (noNewline (fence ++ lang)) with (noNewline lang).
    change (noNewline (fence ++ junk)) with (noNewline junk).
    now rewrite HL, HJ, A1.
Qed.

Lemma formatCodeBlocks_one_block_witness :
  formatCodeBlocks (fun s => s)
    (joinLines ([lit "Try this:"] ++ (fence ++ lit " js ")
                  :: [lit "if (a < b) {"; lit "}"] ++ (fence ++ lit "ignored")
                  :: [lit "Done."])) =
  (if truthyString (dropNewlines (joinLines [lit "Try this:"]))
   then lit "<div>"
          ++ formatTextWithReasoningHighlights (fun s => s)
               (dropNewlines (joinLines [lit "Try this:"]))
          ++ lit "</div>"
   else [])
  ++ codeBlockOpen (trim (lit " js "))
  ++ flat_map (fun l => (fun s => s) l ++ [10%N]) [lit "if (a < b) {"; lit "}"]
  ++ lit "</code></pre>"
  ++ (if truthyString (dropNewlines (joinLines [lit "Done."]))
      then formatTextWithReasoningHighlights (fun s => s)
             (dropNewlines (joinLines [lit "Done."]))
      else []).
Proof.
  apply formatCodeBlocks_one_block; reflexivity.
Defined.

(** ** Rendering the text shown for a complete reply *)

(** X9: with chain-of-thought and [showThinking] on, the text shown for a
    reply that contains both markers is rendered by
    [formatTextWithReasoningHighlights] as the two sections, holding
    exactly the reasoning and the answer that [processCoTResponse]
    extracted from the reply, escaped and with line breaks turned into
    [<br>]. *)
Theorem highlights_show_parsed_sections :
  forall (escapeHtml : jsstring -> jsstring) (text : jsstring)
         (st : ModuleState) (settings : Settings),
    includes text Thinking = true -> includes text Answer = true ->
    enableCoT settings = true -> showThinking settings = true ->
    exists p st1,
      processCoTResponse text st = (Ok p, st1) /\
      formatTextWithReasoningHighlights escapeHtml
        (formatResponseForDisplay p settings) =
      reasoningSections (replaceNewlines (escapeHtml (thinking p)))
        (replaceNewlines (escapeHtml (answer p))).
Proof.
  intros escapeHtml text st settings HT HA HE HS.
  destruct (processCoTResponse_both text st HT HA) as (mid & post & RS & _ & E).
  do 2 eexists. split; [exact E|].
  assert (N : includes (trim mid) Answer = false).
  { pose proof (ReasoningSpan_no_answer RS) as N.
    destruct (trim_Trimmed mid) as (l & r & Em & _). rewrite Em in N.
    exact (includes_middle _ _ _ _ N). }
  unfold formatResponseForDisplay. rewrite HE, HS.
  cbn -[trim lit app formatTextWithReasoningHighlights reasoningSections].
  rewrite display_complete_shape. unfold formatTextWithReasoningHighlights.
  destruct (includes_display (trim mid) (trim post)) as [I1 I2].
  rewrite I1, I2, (@matchThinking_display (trim mid) (trim post) N),
    (@matchAnswer_display (trim mid) (trim post) N).
  cbn [andb].
  now rewrite (trim_display_thinking (trim_idempotent mid)),
    (trim_display_answer (trim_idempotent post)).
Qed.

Lemma highlights_show_parsed_sections_witness :
  exists p st1,
    processCoTResponse (lit "Thinking: because X" ++ [10%N] ++ lit "Answer: Y")
      initialState = (Ok p, st1) /\
    formatTextWithReasoningHighlights (fun s => s)
      (formatResponseForDisplay p (mkSettings true true true)) =
    reasoningSections (replaceNewlines ((fun s => s) (thinking p)))
      (replaceNewlines ((fun s => s) (answer p))).
Proof.
  apply highlights_show_parsed_sections; reflexivity.
Defined.

(** ** The streaming parser on its own *)

(** X10: for every snapshot that contains [Thinking:] and no [Answer:],
    wherever the marker stands, [processPartialCoTResponse] returns as
    reasoning the trimmed text after the first [Thinking:], with an empty
    answer; the result is structured and partial, at stage REASONING, and
    the state is not touched. *)
Theorem processPartialCoTResponse_reasoning_only :
  forall (text : jsstring) (st : ModuleState),
    includes text Thinking = true -> includes text Answer = false ->
    exists pre rest p,
      FirstOcc Thinking text pre rest /\
      processPartialCoTResponse text st = (Ok p, st) /\
      thinking p = trim rest /\ Trimmed rest (thinking p) /\ answer p = [] /\
      isStructured p = true /\ isPartial p = true /\ stageOf p = REASONING.
Proof.
  intros text st HT HA.
  pose proof HT as S. apply splitFirst_Some_iff in S as (pre & rest & S).
  exists pre, rest. eexists. split; [now apply splitFirst_FirstOcc|].
  rewrite (processPartialCoTResponse_reasoning text st HT HA).
  unfold replaceUpToThinking. rewrite S. cbn [app].
  split; [reflexivity|]. repeat split. apply trim_Trimmed.
Qed.

Lemma processPartialCoTResponse_reasoning_only_witness :
  exists pre rest p,
    FirstOcc Thinking (lit "Sure. Thinking:  step one ") pre rest /\
    processPartialCoTResponse (lit "Sure. Thinking:  step one ") initialState
      = (Ok p, initialState) /\
    thinking p = trim rest /\ Trimmed rest (thinking p) /\ answer p = [] /\
    isStructured p = true /\ isPartial p = true /\ stageOf p = REASONING.
Proof.
  apply processPartialCoTResponse_reasoning_only; reflexivity.
Defined.

(** X11: for every snapshot that contains both markers,
    [processPartialCoTResponse] returns as reasoning the trimmed text
    between the first [Thinking:] and the first [Answer:] after it (up to
    the end if none follows), and as answer the trimmed text after the
    first [Answer:] of the snapshot, each without its leading and trailing
    white space; the result is structured, not partial
    and at stage COMPLETE; unlike [processCoTResponse] it stores nothing
    in the state. *)
Theorem processPartialCoTResponse_both_markers :
  forall (text : jsstring) (st : ModuleState),
    includes text Thinking = true -> includes text Answer = true ->
    exists mid post p,
      ReasoningSpan text mid /\ AnswerSpan text post /\
      processPartialCoTResponse text st = (Ok p, st) /\
      thinking p = trim mid /\ answer p = trim post /\
      Trimmed mid (thinking p) /\ Trimmed post (answer p) /\
      isStructured p = true /\ isPartial p = false /\ stageOf p = COMPLETE.
Proof.
  intros text st HT HA.
  destruct (processPartialCoTResponse_both text st HT HA)
    as (mid & post & RS & AS & E).
  exists mid, post. eexists. split; [exact RS|]. split; [exact AS|].
  split; [exact E|]. split; [reflexivity|]. split; [reflexivity|].
  split; [apply trim_Trimmed|]. split; [apply trim_Trimmed|]. now repeat split.
Qed.

Lemma processPartialCoTResponse_both_markers_witness :
  exists mid post p,
    ReasoningSpan (lit "Thinking: ab" ++ [10%N] ++ lit "Answer: c") mid /\
    AnswerSpan (lit "Thinking: ab" ++ [10%N] ++ lit "Answer: c") post /\
    processPartialCoTResponse (lit "Thinking: ab" ++ [10%N] ++ lit "Answer: c")
      initialState = (Ok p, initialState) /\
    thinking p = trim mid /\ answer p = trim post /\
    Trimmed mid (thinking p) /\ Trimmed post (answer p) /\
    isStructured p = true /\ isPartial p = false /\ stageOf p = COMPLETE.
Proof.
  apply processPartialCoTResponse_both_markers; reflexivity.
Defined.

(** ** The end of a stream *)

(** X3: with chain-of-thought on, take a text that contains [Thinking:]
    but does not start with it and has no [Answer:].  As a snapshot, the
    streaming callback parses it as structured and shows ["Thinking: "]
    followed by the reasoning, or the waiting indicator when
    [showThinking] is off.  As the final reply, [processCoTResponse] then
    returns it unstructured and [formatResponseForDisplay] gives the raw
    text.  The text shown for the snapshot and the text shown for the
    final reply differ, for either value of [showThinking]. *)
Theorem partial_and_final_disagree :
  forall (text : jsstring) (st : ModuleState) (settings : Settings),
    enableCoT settings = true ->
    includes text Thinking = true -> startsWith text Thinking = false ->
    includes text Answer = false ->
    exists p shown st' q,
      processPartialCoTResponse text st = (Ok p, st) /\
      hasStructuredResponse p = true /\
      streamCallback settings text st = (Ok shown, st') /\
      shown = (if showThinking settings
               then lit "Thinking: " ++ thinking p else placeholder) /\
      processCoTResponse text st' = (Ok q, st') /\
      hasStructuredResponse q = false /\
      formatResponseForDisplay q settings = text /\
      shown <> formatResponseForDisplay q settings.
Proof.
  intros text st settings HE HT HS HA.
  destruct (@streamCallback_CoT settings text st HE) as (p & EP & EC).
  pose proof EP as EP'.
  rewrite (processPartialCoTResponse_reasoning text st HT HA) in EP'.
  injection EP' as EP'.
  exists p. do 2 eexists. exists (mkProcessed [] text false None None).
  split; [exact EP|]. split; [now rewrite <- EP'|]. split; [exact EC|].
  assert (F : formatResponseForDisplay p settings
              = if showThinking settings
                then lit "Thinking: " ++ thinking p else placeholder).
  { rewrite <- EP', formatResponseForDisplay_reasoning, HE. reflexivity. }
  split; [exact F|].
  split; [apply processCoTResponse_default;
          [now rewrite HA, andb_false_r|now rewrite HS]|].
  split; [reflexivity|].
  assert (Q : formatResponseForDisplay (mkProcessed [] text false None None) settings
              = text).
  { unfold formatResponseForDisplay. cbn. now rewrite orb_true_r. }
  split; [exact Q|]. rewrite Q, F.
  destruct (showThinking settings); intros E.
  - rewrite <- E in HS.
    change (lit "Thinking: ") with (Thinking ++ [32%N]) in HS.
    rewrite <- app_assoc, startsWith_app in HS. discriminate.
  - rewrite <- E in HT. discriminate.
Qed.

Lemma partial_and_final_disagree_witness :
  exists p shown st' q,
    processPartialCoTResponse (lit "Hello Thinking: abc") initialState
      = (Ok p, initialState) /\
    hasStructuredResponse p = true /\
    streamCallback (mkSettings true true true) (lit "Hello Thinking: abc")
      initialState = (Ok shown, st') /\
    shown = (if showThinking (mkSettings true true true)
             then lit "Thinking: " ++ thinking p else placeholder) /\
    processCoTResponse (lit "Hello Thinking: abc") st' = (Ok q, st') /\
    hasStructuredResponse q = false /\
    formatResponseForDisplay q (mkSettings true true true)
      = lit "Hello Thinking: abc" /\
    shown <> formatResponseForDisplay q (mkSettings true true true).
Proof.
  apply partial_and_final_disagree; reflexivity.
Defined.
